(** * Lucid: the image-authenticity scoring engine of [metadata_checker.py]

    A shallow embedding of [ImageAuthenticityChecker] and
    [BatchAuthenticityChecker]: the four metadata checkers, the weighted
    score, the verdict, the recommendations, single-image analysis and the
    batch summary.

    Conventions of the embedding.
    - A Python [str] is a [string]; each [ascii] is one code point in
      0..255 (Latin-1).  [lower()], [int()] and the substring test are
      written out for that range.
    - A Python [float] is a binary64 primitive [float]; the literals of the
      source are the same binary64 constants here.
    - A metadata dictionary is a [gmap string value]; the small dictionaries
      of check outcomes are association lists in insertion order.
    - A Python exception is a [Raise] result. *)

From Stdlib Require Import ZArith Floats Ascii String.
From stdpp Require Import gmap strings list pretty.

Local Open Scope string_scope.
Local Open Scope list_scope.
Local Open Scope nat_scope.
Set Warnings "-inexact-float".

(** ** Python strings *)

Module PyStr.

Definition code (c : ascii) : N := N_of_ascii c.

(** [str.lower()] on one code point: A-Z, and the Latin-1 capitals
    0xC0-0xDE without the multiplication sign 0xD7. *)
Definition lower_char (c : ascii) : ascii :=
  let n := code c in
  if ((65 <=? n) && (n <=? 90) || (192 <=? n) && (n <=? 222) && negb (n =? 215))%N
  then ascii_of_N (n + 32) else c.

Fixpoint lower (s : string) : string :=
  match s with
  | EmptyString => EmptyString
  | String c s' => String (lower_char c) (lower s')
  end.

(** [s.startswith(p)] *)
Fixpoint startswith (p s : string) : bool :=
  match p, s with
  | EmptyString, _ => true
  | String _ _, EmptyString => false
  | String a p', String b s' => Ascii.eqb a b && startswith p' s'
  end.

(** [needle in hay] for two strings. *)
Fixpoint contains (needle hay : string) : bool :=
  startswith needle hay ||
  match hay with
  | EmptyString => false
  | String _ hay' => contains needle hay'
  end.

(** [s.endswith(suffix)] *)
Fixpoint endswith (suffix s : string) : bool :=
  String.eqb suffix s ||
  match s with
  | EmptyString => false
  | String _ s' => endswith suffix s'
  end.

(** [s.split(sep)[0]] for a non-empty [sep]: the text before the first
    occurrence of [sep], the whole of [s] when there is none. *)
Fixpoint split_head (sep s : string) : string :=
  if startswith sep s then EmptyString
  else match s with
       | EmptyString => EmptyString
       | String c s' => String c (split_head sep s')
       end.

(** [s[0:n]] *)
Fixpoint take (n : nat) (s : string) : string :=
  match n, s with
  | S n', String c s' => String c (take n' s')
  | _, _ => EmptyString
  end.

(** The characters of [s] as one-character strings (iteration over a
    [str]). *)
Fixpoint chars (s : string) : list string :=
  match s with
  | EmptyString => []
  | String c s' => String c EmptyString :: chars s'
  end.

(** [sep.join(l)] *)
Fixpoint join (sep : string) (l : list string) : string :=
  match l with
  | [] => EmptyString
  | [x] => x
  | x :: l' => x +:+ sep +:+ join sep l'
  end.

(** [c * n] for a one-character string. *)
Fixpoint repeat_char (c : ascii) (n : nat) : string :=
  match n with
  | O => EmptyString
  | S n' => String c (repeat_char c n')
  end.

(** *** [int(s)] in base 10 *)

(** The white space [int()] strips: the C white space of ASCII, and the
    two Latin-1 code points that are Unicode white space (0x85, 0xA0). *)
Definition int_space (c : ascii) : bool :=
  let n := code c in
  ((9 <=? n) && (n <=? 13) || (n =? 32) || (n =? 133) || (n =? 160))%N.

Fixpoint lstrip (s : string) : string :=
  match s with
  | String c s' => if int_space c then lstrip s' else s
  | EmptyString => EmptyString
  end.

Fixpoint rstrip (s : string) : string :=
  match s with
  | EmptyString => EmptyString
  | String c s' =>
      match rstrip s' with
      | EmptyString => if int_space c then EmptyString else String c EmptyString
      | r => String c r
      end
  end.

Definition digit_of (c : ascii) : option Z :=
  let n := code c in
  if ((48 <=? n) && (n <=? 57))%N then Some (Z.of_N n - 48)%Z else None.

(** Digits with single underscores between them.  [prev] says that the
    previous character was a digit; the result carries the number of
    digits read. *)
Fixpoint digits (s : string) (acc : Z) (n : nat) (prev : bool) : option (Z * nat) :=
  match s with
  | EmptyString => if prev then Some (acc, n) else None
  | String c s' =>
      match digit_of c with
      | Some d => digits s' (acc * 10 + d)%Z (S n) true
      | None =>
          if Ascii.eqb c "_" then
            if prev then digits s' acc n false else None
          else None
      end
  end.

(** [sys.int_max_str_digits], at CPython's default. *)
Definition int_max_str_digits : nat := 4300.

(** [int(s)]: [None] stands for [ValueError]. *)
Definition int (s : string) : option Z :=
  let body := rstrip (lstrip s) in
  let '(neg, rest) :=
    match body with
    | String "-" r => (true, r)
    | String "+" r => (false, r)
    | _ => (false, body)
    end in
  match digits rest 0%Z 0%nat false with
  | Some (z, n) =>
      if (int_max_str_digits <? n)%nat then None
      else Some (if neg then (- z)%Z else z)
  | None => None
  end.

End PyStr.

(** ** Exceptions and results *)

(** A metadata value: what [json.loads] gives for the fields of the
    metadata record (a string, a number, a list of strings). *)
Inductive value :=
  | VStr (s : string)
  | VInt (z : Z)
  | VFloat (f : float)
  | VList (l : list string).

(** The Python exceptions the program can meet, each with what its message
    is built from. *)
Inductive exn :=
  | ValueError (fn arg : string)
  | TypeError (op : string) (v : value)
  | AttributeError (v : value) (attr : string)
  | KeyError (k : string)
  | ZeroDivisionError
  | OSError (path : string).

Inductive result (A : Type) :=
  | Ok (a : A)
  | Raise (e : exn).
Arguments Ok {A} a.
Arguments Raise {A} e.

#[export] Instance result_ret : MRet result := @Ok.
#[export] Instance result_bind : MBind result := λ A B f c,
  match c with
  | Ok a => f a
  | Raise e => Raise e
  end.

Definition returns {A} (c : result A) : bool :=
  match c with
  | Ok _ => true
  | Raise _ => false
  end.

(** [any(f(x) for x in l)], with the short circuit and the exceptions of
    the generator. *)
Fixpoint any_m {A} (f : A → result bool) (l : list A) : result bool :=
  match l with
  | [] => Ok false
  | x :: l' => b ← f x; if b : bool then Ok true else any_m f l'
  end.

(** ** Dictionaries of check outcomes *)

Definition dict (V : Type) := list (string * V).
Abbreviation check_result := (dict bool).

Fixpoint dict_get {V} (k : string) (d : dict V) : option V :=
  match d with
  | [] => None
  | (k', v) :: d' => if String.eqb k k' then Some v else dict_get k d'
  end.

(** [d[k] = v]: in place when the key exists, appended otherwise. *)
Fixpoint dict_set {V} (k : string) (v : V) (d : dict V) : dict V :=
  match d with
  | [] => [(k, v)]
  | (k', v') :: d' =>
      if String.eqb k k' then (k', v) :: d' else (k', v') :: dict_set k v d'
  end.

(** [d[k]], with its [KeyError]. *)
Definition dict_item {V} (k : string) (d : dict V) : result V :=
  match dict_get k d with
  | Some v => Ok v
  | None => Raise (KeyError k)
  end.

Definition keys {V} (d : dict V) : list string := map fst d.
Definition values {V} (d : dict V) : list V := map snd d.

(** [sum(bools)] and [any(bools)] *)
Fixpoint sum_true (l : list bool) : nat :=
  match l with
  | [] => 0
  | b :: l' => (if b then 1 else 0) + sum_true l'
  end.

Definition py_any (l : list bool) : bool := existsb id l.

(** ** Floats *)

Definition float_of_nat (n : nat) : float :=
  PrimFloat.of_uint63 (Uint63.of_Z (Z.of_nat n)).

(** [n / d] on two non-negative ints (true division). *)
Definition true_div (n d : nat) : result float :=
  match d with
  | O => Raise ZeroDivisionError
  | S _ => Ok (float_of_nat n / float_of_nat d)%float
  end.

(** [f == z] for a float and an int: Python compares the exact values. *)
Definition float_eq_Z (f : float) (z : Z) : bool :=
  match Prim2SF f with
  | S754_zero _ => (z =? 0)%Z
  | S754_finite s m e =>
      let v := if s then Z.neg m else Z.pos m in
      if (0 <=? e)%Z then (z =? v * 2 ^ e)%Z else (v =? z * 2 ^ (- e))%Z
  | _ => false
  end.

(** ** Operations on metadata values *)

(** [a == b] as [set()] sees it: equal values, or the same object (the one
    NaN object [json] hands out). *)
Definition key_eq (a b : value) : bool :=
  match a, b with
  | VStr s, VStr t => String.eqb s t
  | VInt x, VInt y => (x =? y)%Z
  | VFloat f, VFloat g => (f =? g)%float || is_nan f && is_nan g
  | VInt x, VFloat f | VFloat f, VInt x => float_eq_Z f x
  | VList l, VList l' => bool_decide (l = l')
  | _, _ => false
  end.

(** [bool(v)] *)
Definition truthy (v : value) : bool :=
  match v with
  | VStr s => negb (String.eqb s "")
  | VInt z => negb (z =? 0)%Z
  | VFloat f => negb (f =? 0)%float
  | VList l => negb (bool_decide (l = []))
  end.

(** [needle in v] *)
Definition py_in (needle : string) (v : value) : result bool :=
  match v with
  | VStr s => Ok (PyStr.contains needle s)
  | VList l => Ok (existsb (String.eqb needle) l)
  | VInt _ | VFloat _ => Raise (TypeError "in" v)
  end.

(** [v.split(sep)[0]] *)
Definition py_split_head (v : value) (sep : string) : result string :=
  match v with
  | VStr s => Ok (PyStr.split_head sep s)
  | _ => Raise (AttributeError v "split")
  end.

(** [int(s)] *)
Definition py_int (s : string) : result Z :=
  match PyStr.int s with
  | Some z => Ok z
  | None => Raise (ValueError "int" s)
  end.

(** [int(v[0:4])] *)
Definition py_year (v : value) : result Z :=
  match v with
  | VStr s => py_int (PyStr.take 4 s)
  | VList l => Raise (TypeError "int" (VList (take 4 l)))
  | VInt _ | VFloat _ => Raise (TypeError "subscript" v)
  end.

(** [iter(v)] *)
Definition py_iter (v : value) : result (list string) :=
  match v with
  | VStr s => Ok (PyStr.chars s)
  | VList l => Ok l
  | VInt _ | VFloat _ => Raise (TypeError "iter" v)
  end.

(** [set(l)]: the distinct elements, [TypeError] on an unhashable one. *)
Fixpoint py_set (l : list value) (seen : list value) : result (list value) :=
  match l with
  | [] => Ok seen
  | VList x :: _ => Raise (TypeError "hash" (VList x))
  | v :: l' => py_set l' (if existsb (key_eq v) seen then seen else (seen ++ [v])%list)
  end.

(** [sorted(l)] on ints. *)
Fixpoint insert_sorted (x : Z) (l : list Z) : list Z :=
  match l with
  | [] => [x]
  | y :: l' => if (x <? y)%Z then x :: l else y :: insert_sorted x l'
  end.

Fixpoint sorted (l : list Z) : list Z :=
  match l with
  | [] => []
  | x :: l' => insert_sorted x (sorted l')
  end.

(** ** The platform

    What the program takes from the interpreter and the operating system
    and this development does not look into. *)
Record Platform := {
  (** [float(s)], [None] for [ValueError] *)
  float_of_str : string → option float;
  (** [str(f)] for a float *)
  float_str : float → string;
  (** [repr(s)] for a string *)
  str_repr : string → string;
  (** the [.1f] format *)
  fmt_1f : float → string;
  (** [str(e)] for an exception *)
  exn_str : exn → string;
  (** [os.path.join] *)
  path_join : string → string → string;
  (** [os.listdir], [None] when it raises *)
  listdir : string → option (list string);
  (** [subprocess.run] of ExifTool on a path: [None] when it raises (a
      time-out, a missing executable), else the return code and what
      [json.loads(stdout)] gives ([None] when that raises) *)
  run_exiftool : string → option (Z * option (list (gmap string value)));
  (** [datetime.now().isoformat()] while the given path is analysed *)
  now : string → string
}.

(** ** ImageAuthenticityChecker *)

(** The metadata record of one image, as [json.loads] returns it. *)
Abbreviation metadata := (gmap string value).

Section Checker.

Context (P : Platform).

(** [str(v)] *)
Definition py_str (v : value) : string :=
  match v with
  | VStr s => s
  | VInt z => pretty z
  | VFloat f => float_str P f
  | VList l => "[" +:+ PyStr.join ", " (str_repr P <$> l) +:+ "]"
  end.

(** [float(s)] *)
Definition py_float (s : string) : result float :=
  match float_of_str P s with
  | Some f => Ok f
  | None => Raise (ValueError "float" s)
  end.

(** [field in metadata] *)
Definition mem (field : string) (m : metadata) : bool :=
  bool_decide (is_Some (m !! field)).

(** [[metadata.get(field) for field in fields if field in metadata]] *)
Definition existing (fields : list string) (m : metadata) : list value :=
  omap (λ field, m !! field) fields.

(** [extract_metadata]: the first record of ExifTool's JSON output, [None]
    on a non-zero return code and on every exception.  (The copy written to
    [metadata.json] is not part of the result.) *)
Definition extract_metadata (image_path : string) : option metadata :=
  match run_exiftool P image_path with
  | Some (returncode, stdout) =>
      if (returncode =? 0)%Z then
        match stdout with
        | Some (first :: _) => Some first
        | _ => None
        end
      else None
  | None => None
  end.

Definition integrity_keys : list string :=
  ["valid_file_type"; "reasonable_size"; "has_metadata"; "consistent_dates"].

Definition check_basic_integrity (m : metadata) : result check_result :=
  let checks : check_result := (λ k, (k, false)) <$> integrity_keys in
  (* File type check *)
  let checks :=
    match m !! "FileType" with
    | Some (VStr t) =>
        if existsb (String.eqb t) ["PNG"; "JPEG"; "JPG"; "TIFF"]
        then dict_set "valid_file_type" true checks else checks
    | _ => checks
    end in
  (* File size check *)
  checks ←
    match m !! "FileSize" with
    | Some size_str =>
        has_kb ← py_in "kB" size_str;
        if has_kb : bool then
          head ← py_split_head size_str " kB";
          size_kb ← py_int head;
          Ok (dict_set "reasonable_size" ((1 <=? size_kb) && (size_kb <=? 50000))%Z checks)
        else
          has_mb ← py_in "MB" size_str;
          if has_mb : bool then
            head ← py_split_head size_str " MB";
            size_mb ← py_float head;
            Ok (dict_set "reasonable_size"
                  ((0.001 <=? size_mb) && (size_mb <=? 50))%float checks)
          else Ok checks
    | None => Ok checks
    end;
  (* Metadata presence *)
  let checks := dict_set "has_metadata" (5 <? size m)%nat checks in
  (* Date consistency *)
  let existing_dates := existing ["FileModifyDate"; "FileCreateDate"; "DateTimeOriginal"] m in
  let checks :=
    if (2 <=? length existing_dates)%nat
    then dict_set "consistent_dates"
           (forallb (λ date, PyStr.contains "202" (py_str date)) existing_dates) checks
    else checks in
  Ok checks.

Definition c2pa_keys : list string :=
  ["has_c2pa_manifest"; "valid_signature"; "hash_validation"; "ai_disclosure";
   "validation_passed"].

Definition c2pa_indicators : list string :=
  ["c2pa"; "JUMD"; "ActiveManifestUrl"; "ClaimSignatureUrl"].

Definition ai_keywords : list string :=
  ["generative ai"; "google ai"; "algorithmicmedia"; "created"].

Definition critical_validations : list string :=
  ["signingCredential"; "timeStamp"; "claimSignature"].

Definition check_c2pa_authenticity (m : metadata) : result check_result :=
  let c2pa_checks : check_result := (λ k, (k, false)) <$> c2pa_keys in
  (* C2PA presence *)
  let c2pa_checks :=
    dict_set "has_c2pa_manifest"
      (existsb (λ indicator,
         existsb (λ '(key, value),
           PyStr.contains (PyStr.lower indicator) (PyStr.lower key)
           || PyStr.contains (PyStr.lower indicator) (PyStr.lower (py_str value)))
           (map_to_list m))
         c2pa_indicators)
      c2pa_checks in
  (* Digital signature *)
  let c2pa_checks := dict_set "valid_signature" (mem "ClaimSignatureUrl" m) c2pa_checks in
  (* Hash validation *)
  let c2pa_checks := dict_set "hash_validation" (mem "ActiveManifestHash" m) c2pa_checks in
  (* AI disclosure *)
  let c2pa_checks :=
    dict_set "ai_disclosure"
      (existsb (λ keyword,
         existsb (λ value, PyStr.contains keyword (PyStr.lower (py_str value)))
           (map_to_list m).*2)
         ai_keywords)
      c2pa_checks in
  (* Validation results *)
  match m !! "ValidationResultsActiveManifestSuccessCode" with
  | Some validation_codes =>
      passed ← any_m (λ critical,
                  codes ← py_iter validation_codes;
                  Ok (existsb (PyStr.contains critical) codes))
                critical_validations;
      Ok (dict_set "validation_passed" passed c2pa_checks)
  | None => Ok c2pa_checks
  end.

Definition ai_keys : list string :=
  ["explicit_ai_credit"; "generative_actions"; "digital_source_type"; "creation_tools"].

Definition ai_terms : list string :=
  ["ai"; "generative"; "stable diffusion"; "midjourney"; "dall-e"; "google ai"].

Definition credit_fields : list string :=
  ["Credit"; "Creator"; "Software"; "ProcessingSoftware"].

(** [any(ai_term in value for ai_term in [...])] on [str(v).lower()] *)
Definition mentions_ai (v : value) : bool :=
  let value := PyStr.lower (py_str v) in
  existsb (λ ai_term, PyStr.contains ai_term value) ai_terms.

Definition check_ai_indicators (m : metadata) : result check_result :=
  let ai_checks : check_result := (λ k, (k, false)) <$> ai_keys in
  (* Explicit AI credits *)
  let ai_checks :=
    fold_left (λ ai_checks field,
      match m !! field with
      | Some v =>
          if mentions_ai v
          then dict_set "explicit_ai_credit" true ai_checks else ai_checks
      | None => ai_checks
      end) credit_fields ai_checks in
  (* Generative actions *)
  ai_checks ←
    match m !! "ActionsDescription" with
    | Some desc =>
        found ← any_m (λ term, py_in term desc) ["generative"; "created"; "ai"];
        Ok (if found : bool then dict_set "generative_actions" true ai_checks else ai_checks)
    | None => Ok ai_checks
    end;
  (* Digital source type *)
  let ai_checks :=
    match m !! "DigitalSourceType" with
    | Some v =>
        let ds_type := PyStr.lower (py_str v) in
        if PyStr.contains "algorithmicmedia" ds_type
        then dict_set "digital_source_type" true ai_checks else ai_checks
    | None => ai_checks
    end in
  (* Creation tools *)
  let ai_checks :=
    if mem "Claim_Generator_InfoName" m
    then dict_set "creation_tools" true ai_checks else ai_checks in
  Ok ai_checks.

Definition tampering_keys : list string :=
  ["inconsistent_software"; "multiple_editors"; "metadata_stripping"; "date_anomalies"].

Definition software_fields : list string := ["Software"; "ProcessingSoftware"; "CreatorTool"].

Definition tampering_date_fields : list string :=
  ["DateTimeOriginal"; "CreateDate"; "ModifyDate"].

(** The [for field in software_fields] loop. *)
Definition software_used (m : metadata) : list value :=
  fold_left (λ used field,
    match m !! field with
    | Some v => if truthy v then (used ++ [v])%list else used
    | None => used
    end) software_fields [].

(** The [for date_str in existing_dates] loop of the [try] block. *)
Fixpoint parse_years (existing_dates : list value) (dates_parsed : list Z)
  : result (list Z) :=
  match existing_dates with
  | [] => Ok dates_parsed
  | date_str :: rest =>
      found ← py_in "202" date_str;
      if found : bool then
        year ← py_year date_str;
        parse_years rest (dates_parsed ++ [year])%list
      else parse_years rest dates_parsed
  end.

Definition check_tampering_indicators (m : metadata) : result check_result :=
  let tampering_checks : check_result := (λ k, (k, false)) <$> tampering_keys in
  (* Check for multiple editing software *)
  editors ← py_set (software_used m) [];
  let tampering_checks :=
    dict_set "multiple_editors" (2 <? length editors)%nat tampering_checks in
  (* Metadata stripping *)
  let field_count := size m in
  let tampering_checks :=
    dict_set "metadata_stripping" ((field_count <? 10)%nat && mem "FileType" m)
      tampering_checks in
  (* Date anomalies *)
  let existing_dates := existing tampering_date_fields m in
  let tampering_checks :=
    if (2 <=? length existing_dates)%nat then
      match parse_years existing_dates [] with
      | Ok dates_parsed =>
          if (2 <=? length dates_parsed)%nat
          then dict_set "date_anomalies"
                 (bool_decide (dates_parsed ≠ sorted dates_parsed)) tampering_checks
          else tampering_checks
      | Raise _ => tampering_checks
      end
    else tampering_checks in
  Ok tampering_checks.

End Checker.

(** ** Score, verdict and recommendations *)

Definition integrity_weight : float := 0.3.
Definition c2pa_weight : float := 0.4.
Definition ai_weight : float := 0.2.
Definition tampering_weight : float := 0.1.

(** [sum(d.values()) / len(d)] *)
Definition group_ratio (d : check_result) : result float :=
  true_div (sum_true (values d)) (length d).

Definition integrity_score (integrity_checks : check_result) : result float :=
  group_ratio integrity_checks.

(** [sum(...) / len(...) if any(c2pa_checks.values()) else 0] *)
Definition c2pa_score (c2pa_checks : check_result) : result float :=
  if py_any (values c2pa_checks) then group_ratio c2pa_checks else Ok 0%float.

Definition ai_score (ai_checks : check_result) : result float :=
  group_ratio ai_checks.

Definition tampering_score (tampering_checks : check_result) : result float :=
  r ← group_ratio tampering_checks; Ok (1 - r)%float.

(** [min(100, x)] *)
Definition min_100 (x : float) : float :=
  if (x <? 100)%float then x else 100%float.

Definition calculate_authenticity_score
    (integrity_checks c2pa_checks ai_checks tampering_checks : check_result)
  : result float :=
  i ← integrity_score integrity_checks;
  c ← c2pa_score c2pa_checks;
  a ← ai_score ai_checks;
  t ← tampering_score tampering_checks;
  let overall_score :=
    ((i * integrity_weight + c * c2pa_weight + a * ai_weight + t * tampering_weight)
     * 100)%float in
  Ok (min_100 overall_score).

Definition get_verdict (score : float) : string :=
  if (80 <=? score)%float then "HIGH_CONFIDENCE_AUTHENTIC"
  else if (60 <=? score)%float then "MODERATE_CONFIDENCE"
  else if (40 <=? score)%float then "LOW_CONFIDENCE"
  else "POTENTIALLY_MANIPULATED".

Definition get_recommendations (checks : dict check_result) (score : float)
  : result (list string) :=
  let recommendations : list string := [] in
  let recommendations :=
    if (score <? 60)%float
    then (recommendations ++ ["Exercise caution when using this image"])%list
    else recommendations in
  c2pa ← dict_item "c2pa" checks;
  has_c2pa_manifest ← dict_item "has_c2pa_manifest" c2pa;
  let recommendations :=
    if negb has_c2pa_manifest
    then (recommendations ++ ["No digital provenance data found"])%list
    else recommendations in
  tampering ← dict_item "tampering" checks;
  multiple_editors ← dict_item "multiple_editors" tampering;
  let recommendations :=
    if multiple_editors : bool
    then (recommendations ++ ["Multiple editing tools detected - verify source"])%list
    else recommendations in
  ai ← dict_item "ai" checks;
  explicit_ai_credit ← dict_item "explicit_ai_credit" ai;
  let recommendations :=
    if explicit_ai_credit && (score <? 70)%float
    then (recommendations ++ ["AI-generated content - verify intended use"])%list
    else recommendations in
  Ok recommendations.

(** ** Reports *)

Record report := {
  timestamp : string;
  image_path : string;
  file_size : value;
  file_type : value;
  authenticity_score : float;
  verdict : string;
  detailed_checks : dict check_result;
  recommendations : list string
}.

(** What [analyze_image] returns: a report, or the dictionary with the one
    key ["error"]. *)
Inductive entry :=
  | EReport (r : report)
  | EError (message : string).

Section Analysis.

Context (P : Platform).

Definition generate_report (path : string) (m : metadata) (score : float)
    (checks : dict check_result) : result report :=
  recs ← get_recommendations checks score;
  Ok {| timestamp := now P path;
        image_path := path;
        file_size := default (VStr "Unknown") (m !! "FileSize");
        file_type := default (VStr "Unknown") (m !! "FileType");
        authenticity_score := score;
        verdict := get_verdict score;
        detailed_checks := checks;
        recommendations := recs |}.

Definition analyze_image (path : string) : result entry :=
  match extract_metadata P path with
  | None => Ok (EError "Could not extract metadata")
  | Some m =>
      if (size m =? 0)%nat then Ok (EError "Could not extract metadata")
      else
        integrity_checks ← check_basic_integrity P m;
        c2pa_checks ← check_c2pa_authenticity P m;
        ai_checks ← check_ai_indicators P m;
        tampering_checks ← check_tampering_indicators m;
        score ← calculate_authenticity_score
                  integrity_checks c2pa_checks ai_checks tampering_checks;
        let checks :=
          [("integrity", integrity_checks); ("c2pa", c2pa_checks);
           ("ai", ai_checks); ("tampering", tampering_checks)] in
        r ← generate_report path m score checks;
        Ok (EReport r)
  end.

(** ** BatchAuthenticityChecker *)

Definition image_extensions : list string :=
  [".jpg"; ".jpeg"; ".png"; ".tiff"; ".tif"; ".webp"].

Definition is_image (filename : string) : bool :=
  existsb (λ ext, PyStr.endswith ext (PyStr.lower filename)) image_extensions.

(** One turn of the [for filename in os.listdir(...)] loop, with its
    [try]/[except Exception]. *)
Definition analyze_file (directory_path : string) (results : list entry)
    (filename : string) : list entry :=
  if is_image filename then
    let image_path := path_join P directory_path filename in
    match analyze_image image_path with
    | Ok r => results ++ [r]
    | Raise e =>
        results ++
        [EError ("Failed to analyze " +:+ filename +:+ ": " +:+ exn_str P e)]
    end
  else results.

Definition analyze_directory (directory_path : string) : result (list entry) :=
  match listdir P directory_path with
  | Some filenames => Ok (fold_left (analyze_file directory_path) filenames [])
  | None => Raise (OSError directory_path)
  end.

(** The [summary] dictionary of [generate_summary_report]. *)
Record summary := {
  total_images : nat;
  average_score : float;
  high : nat;
  medium : nat;
  low : nat;
  suspicious : nat;
  c2pa_images : nat;
  ai_generated_images : nat
}.

(** [[r for r in results if 'authenticity_score' in r]] *)
Definition valid_results (results : list entry) : list report :=
  omap (λ r, match r with EReport r => Some r | EError _ => None end) results.

(** One turn of the [for result in valid_results] loop. *)
Definition summary_step (acc : list float * summary) (r : report)
  : result (list float * summary) :=
  let '(scores, s) := acc in
  let score := authenticity_score r in
  let scores := (scores ++ [score])%list in
  let s :=
    if (80 <=? score)%float then
      {| total_images := total_images s; average_score := average_score s;
         high := high s + 1; medium := medium s; low := low s;
         suspicious := suspicious s; c2pa_images := c2pa_images s;
         ai_generated_images := ai_generated_images s |}
    else if (60 <=? score)%float then
      {| total_images := total_images s; average_score := average_score s;
         high := high s; medium := medium s + 1; low := low s;
         suspicious := suspicious s; c2pa_images := c2pa_images s;
         ai_generated_images := ai_generated_images s |}
    else if (40 <=? score)%float then
      {| total_images := total_images s; average_score := average_score s;
         high := high s; medium := medium s; low := low s + 1;
         suspicious := suspicious s; c2pa_images := c2pa_images s;
         ai_generated_images := ai_generated_images s |}
    else
      {| total_images := total_images s; average_score := average_score s;
         high := high s; medium := medium s; low := low s;
         suspicious := suspicious s + 1; c2pa_images := c2pa_images s;
         ai_generated_images := ai_generated_images s |} in
  c2pa ← dict_item "c2pa" (detailed_checks r);
  has_c2pa_manifest ← dict_item "has_c2pa_manifest" c2pa;
  let s :=
    {| total_images := total_images s; average_score := average_score s;
       high := high s; medium := medium s; low := low s; suspicious := suspicious s;
       c2pa_images := c2pa_images s + (if has_c2pa_manifest : bool then 1 else 0);
       ai_generated_images := ai_generated_images s |} in
  ai ← dict_item "ai" (detailed_checks r);
  let s :=
    {| total_images := total_images s; average_score := average_score s;
       high := high s; medium := medium s; low := low s; suspicious := suspicious s;
       c2pa_images := c2pa_images s;
       ai_generated_images :=
         ai_generated_images s + (if py_any (values ai) then 1 else 0) |} in
  Ok (scores, s).

Fixpoint summary_loop (valid : list report) (acc : list float * summary)
  : result (list float * summary) :=
  match valid with
  | [] => Ok acc
  | r :: rest => acc ← summary_step acc r; summary_loop rest acc
  end.

(** [sum(scores)] on floats, from the int 0. *)
Definition float_sum (scores : list float) : float :=
  fold_left (λ acc x, acc + x)%float scores 0%float.

(** The [summary] dictionary as it stands when the strings are formatted. *)
Definition summarize (valid : list report) : result summary :=
  let s := {| total_images := length valid; average_score := 0;
              high := 0; medium := 0; low := 0; suspicious := 0;
              c2pa_images := 0; ai_generated_images := 0 |} in
  '(scores, s) ← summary_loop valid ([], s);
  Ok (match scores with
      | [] => s
      | _ :: _ =>
          {| total_images := total_images s;
             average_score := (float_sum scores / float_of_nat (length scores))%float;
             high := high s; medium := medium s; low := low s;
             suspicious := suspicious s; c2pa_images := c2pa_images s;
             ai_generated_images := ai_generated_images s |}
      end).

Definition summary_strings (s : summary) : list string :=
  [ PyStr.repeat_char "=" 60;
    "BATCH ANALYSIS SUMMARY";
    PyStr.repeat_char "=" 60;
    "Total Images Analyzed: " +:+ pretty (total_images s);
    "Average Authenticity Score: " +:+ fmt_1f P (average_score s) +:+ "%";
    "C2PA-Enabled Images: " +:+ pretty (c2pa_images s);
    "AI-Generated Images: " +:+ pretty (ai_generated_images s);
    "Score Distribution:";
    "  High Confidence (80-100%): " +:+ pretty (high s);
    "  Medium Confidence (60-79%): " +:+ pretty (medium s);
    "  Low Confidence (40-59%): " +:+ pretty (low s);
    "  Suspicious (0-39%): " +:+ pretty (suspicious s) ].

Definition generate_summary_report (results : list entry) : result (list string) :=
  let valid := valid_results results in
  match valid with
  | [] => Ok ["No valid images analyzed"]
  | _ :: _ => s ← summarize valid; Ok (summary_strings s)
  end.

End Analysis.

(** ** A test bench

    A platform with two image files, and the metadata records the examples
    run on. *)
Module Bench.

(** An image of a few kilobytes, as ExifTool reports it. *)
Definition small_png : metadata :=
  {[ "SourceFile" := VStr "shots/small.png";
     "FileType" := VStr "PNG";
     "FileSize" := VStr "2.5 kB" ]}.

(** A signed image with a manifest hash. *)
Definition signed : metadata :=
  {[ "ClaimSignatureUrl" := VStr "self#jumbf=sig";
     "ActiveManifestHash" := VStr "9f2b" ]}.

(** A camera picture with dates out of order. *)
Definition camera : metadata :=
  {[ "SourceFile" := VStr "shots/cam.jpg";
     "FileType" := VStr "JPEG";
     "FileSize" := VStr "200 kB";
     "Software" := VStr "Midjourney AI";
     "ImageWidth" := VInt 640;
     "Megapixels" := VFloat 0.3;
     "Keywords" := VList ["a"; "b"];
     "DateTimeOriginal" := VStr "2024:05:01 10:00:00";
     "CreateDate" := VStr "2023:05:01 10:00:00" ]}.

(** Records with a number or a list where the checkers expect text. *)
Definition numeric_codes : metadata :=
  {[ "ValidationResultsActiveManifestSuccessCode" := VInt 0 ]}.

Definition numeric_actions : metadata := {[ "ActionsDescription" := VInt 5 ]}.

Definition listed_software : metadata := {[ "Software" := VList ["GIMP"; "Krita"] ]}.

(** The outcomes of the four checkers on [camera]. *)
Definition camera_integrity : check_result :=
  [("valid_file_type", true); ("reasonable_size", true);
   ("has_metadata", true); ("consistent_dates", false)].

Definition camera_c2pa : check_result :=
  [("has_c2pa_manifest", false); ("valid_signature", false);
   ("hash_validation", false); ("ai_disclosure", false);
   ("validation_passed", false)].

Definition camera_ai : check_result :=
  [("explicit_ai_credit", true); ("generative_actions", false);
   ("digital_source_type", false); ("creation_tools", false)].

Definition camera_tampering : check_result :=
  [("inconsistent_software", false); ("multiple_editors", false);
   ("metadata_stripping", true); ("date_anomalies", true)].

Definition camera_checks : dict check_result :=
  [("integrity", camera_integrity); ("c2pa", camera_c2pa);
   ("ai", camera_ai); ("tampering", camera_tampering)].

Definition camera_dates : list string :=
  ["2024:05:01 10:00:00"; "2023:05:01 10:00:00"].

Definition platform : Platform :=
  {| float_of_str := λ s, if String.eqb s "3.2" then Some 3.2%float else None;
     float_str := λ f, if (f =? 0.3)%float then "0.3" else "nan";
     str_repr := λ s, "'" +:+ s +:+ "'";
     fmt_1f := λ f, if (f =? 32.49999999999999)%float then "32.5" else "nan";
     exn_str := λ e, match e with
                     | ValueError _ arg => "invalid literal: " +:+ arg
                     | _ => "error"
                     end;
     path_join := λ d f, d +:+ "/" +:+ f;
     listdir := λ d, if String.eqb d "shots"
                     then Some ["cam.jpg"; "notes.txt"; "small.png"; "empty.PNG"]
                     else None;
     run_exiftool := λ p,
       if String.eqb p "shots/cam.jpg" then Some (0%Z, Some [camera])
       else if String.eqb p "shots/small.png" then Some (0%Z, Some [small_png])
       else if String.eqb p "shots/empty.PNG" then Some (0%Z, Some [∅])
       else Some (1%Z, None);
     now := λ _, "2025-01-01T00:00:00" |}.

End Bench.

(** ** What the specification says, written next to the code *)

(** The threshold table of the verdicts, lower bounds included. *)
Definition in_band (score : float) (v : string) : Prop :=
  (v = "HIGH_CONFIDENCE_AUTHENTIC" ∧ (80 <=? score)%float = true) ∨
  (v = "MODERATE_CONFIDENCE" ∧ (60 <=? score)%float = true ∧ (score <? 80)%float = true) ∨
  (v = "LOW_CONFIDENCE" ∧ (40 <=? score)%float = true ∧ (score <? 60)%float = true) ∨
  (v = "POTENTIALLY_MANIPULATED" ∧ (score <? 40)%float = true).

#[export] Instance in_band_dec score v : Decision (in_band score v).
Proof. unfold in_band. apply _. Defined.

Definition verdicts : list string :=
  ["HIGH_CONFIDENCE_AUTHENTIC"; "MODERATE_CONFIDENCE"; "LOW_CONFIDENCE";
   "POTENTIALLY_MANIPULATED"].

(** The four recommendation rules, in their order; [stop] is what ends each
    sentence. *)
Definition recommendation_rules (stop : string) (score : float)
    (has_c2pa_manifest multiple_editors explicit_ai_credit : bool) : list string :=
  (if (score <? 60)%float
   then ["Exercise caution when using this image" +:+ stop] else []) ++
  (if negb has_c2pa_manifest
   then ["No digital provenance data found" +:+ stop] else []) ++
  (if multiple_editors
   then ["Multiple editing tools detected - verify source" +:+ stop] else []) ++
  (if explicit_ai_credit && (score <? 70)%float
   then ["AI-generated content - verify intended use" +:+ stop] else []).

(** The date anomaly rule on the collected date strings. *)
Definition leading_year (date : string) : option Z := PyStr.int (PyStr.take 4 date).

(** The years of the dates that contain ["202"], [None] when one of them
    does not parse. *)
Fixpoint years_of (dates : list string) : option (list Z) :=
  match dates with
  | [] => Some []
  | date :: rest =>
      if PyStr.contains "202" date then
        match leading_year date, years_of rest with
        | Some y, Some ys => Some (y :: ys)
        | _, _ => None
        end
      else years_of rest
  end.

Fixpoint ascending (l : list Z) : bool :=
  match l with
  | x :: (y :: _) as l' => (x <=? y)%Z && ascending l'
  | _ => true
  end.

Definition date_anomalies_rule (dates : list string) : bool :=
  if (length dates <? 2)%nat then false
  else match years_of dates with
       | Some years => (2 <=? length years)%nat && negb (ascending years)
       | None => false
       end.

(** The batch summary over the reports that were produced. *)
Definition has_manifest (r : report) : bool :=
  match dict_get "c2pa" (detailed_checks r) with
  | Some c => default false (dict_get "has_c2pa_manifest" c)
  | None => false
  end.

Definition has_ai_indicator (r : report) : bool :=
  match dict_get "ai" (detailed_checks r) with
  | Some a => py_any (values a)
  | None => false
  end.

Definition count_if {A} (f : A → bool) (l : list A) : nat := length (List.filter f l).

(** The number of reports whose score has the given verdict. *)
Definition count_verdict (v : string) (valid : list report) : nat :=
  count_if (λ r, String.eqb (get_verdict (authenticity_score r)) v) valid.

Definition summary_of (valid : list report) : summary :=
  {| total_images := length valid;
     average_score :=
       (float_sum (authenticity_score <$> valid) / float_of_nat (length valid))%float;
     high := count_verdict "HIGH_CONFIDENCE_AUTHENTIC" valid;
     medium := count_verdict "MODERATE_CONFIDENCE" valid;
     low := count_verdict "LOW_CONFIDENCE" valid;
     suspicious := count_verdict "POTENTIALLY_MANIPULATED" valid;
     c2pa_images := count_if has_manifest valid;
     ai_generated_images := count_if has_ai_indicator valid |}.

(** The checks of a group that hold in every tuple of counts: one count of
    true outcomes per group, within the number of declared keys. *)
Definition all_counts (f : nat → nat → nat → nat → bool) : bool :=
  forallb (λ ni, forallb (λ nc, forallb (λ na, forallb (λ nt, f ni nc na nt)
    (seq 0 5)) (seq 0 5)) (seq 0 6)) (seq 0 5).

(** The score as a function of the numbers of true outcomes and of keys. *)
Definition score_of_counts (ni li nc lc na la nt lt : nat) : result float :=
  i ← true_div ni li;
  c ← (if (0 <? nc)%nat then true_div nc lc else Ok 0%float);
  a ← true_div na la;
  t ← (r ← true_div nt lt; Ok (1 - r)%float);
  Ok (min_100 ((i * integrity_weight + c * c2pa_weight + a * ai_weight
                + t * tampering_weight) * 100)%float).

Definition declared_score (ni nc na nt : nat) : result float :=
  score_of_counts ni 4 nc 5 na 4 nt 4.

(** What is checked of one score: its range and its band. *)
Definition score_ok (s : float) : bool :=
  (0 <=? s)%float && (s <=? 100)%float
  && bool_decide (in_band s (get_verdict s))
  && forallb (λ v, implb (bool_decide (in_band s v))
                         (bool_decide (v = get_verdict s))) verdicts.

Definition on_score (f : float → bool) (c : result float) : bool :=
  match c with
  | Ok s => f s
  | Raise _ => false
  end.

(** [c1] and [c2] are scores and the first is at most the second. *)
Definition le_scores (c1 c2 : result float) : bool :=
  match c1, c2 with
  | Ok s, Ok s' => (s <=? s')%float
  | _, _ => false
  end.

(** One more true outcome in one group, the other three counts fixed. *)
Definition flips_ordered (ni nc na nt : nat) : bool :=
  implb (ni <? 4) (le_scores (declared_score ni nc na nt) (declared_score (S ni) nc na nt))
  && implb (nc <? 5) (le_scores (declared_score ni nc na nt) (declared_score ni (S nc) na nt))
  && implb (na <? 4) (le_scores (declared_score ni nc na nt) (declared_score ni nc (S na) nt))
  && implb (nt <? 4) (le_scores (declared_score ni nc na (S nt)) (declared_score ni nc na nt)).

(** No software value that [set()] cannot hash. *)
Definition is_list (v : value) : bool :=
  match v with
  | VList _ => true
  | _ => false
  end.

Definition hashable_software (m : metadata) : bool :=
  forallb (λ v, negb (is_list v)) (software_used m).

(** The records on which the four checkers return, read off their
    branches: a file size that is a string (whose magnitude the branch of
    its unit parses, [int] for kB and [float] for MB) or a list without the
    unit names, validation codes and an action description that are not
    numbers, and software values that can be put in a set. *)
Definition size_field_ok (P : Platform) (m : metadata) : bool :=
  match m !! "FileSize" with
  | None => true
  | Some (VStr s) =>
      if PyStr.contains "kB" s
      then bool_decide (is_Some (PyStr.int (PyStr.split_head " kB" s)))
      else if PyStr.contains "MB" s
      then bool_decide (is_Some (float_of_str P (PyStr.split_head " MB" s)))
      else true
  | Some (VList l) =>
      negb (existsb (String.eqb "kB") l) && negb (existsb (String.eqb "MB") l)
  | Some (VInt _ | VFloat _) => false
  end.

Definition not_a_number (field : string) (m : metadata) : bool :=
  match m !! field with
  | Some (VInt _ | VFloat _) => false
  | _ => true
  end.

Definition well_formed (P : Platform) (m : metadata) : bool :=
  size_field_ok P m
  && not_a_number "ValidationResultsActiveManifestSuccessCode" m
  && not_a_number "ActionsDescription" m
  && hashable_software m.

(** A check whose fields are all absent is false. *)
Definition absent_fields_are_false (m : metadata) (i c a t : check_result) : Prop :=
  (m !! "FileType" = None →
   dict_get "valid_file_type" i = Some false
   ∧ dict_get "metadata_stripping" t = Some false)
  ∧ (m !! "FileSize" = None → dict_get "reasonable_size" i = Some false)
  ∧ (existing ["FileModifyDate"; "FileCreateDate"; "DateTimeOriginal"] m = [] →
     dict_get "consistent_dates" i = Some false)
  ∧ (m !! "ClaimSignatureUrl" = None → dict_get "valid_signature" c = Some false)
  ∧ (m !! "ActiveManifestHash" = None → dict_get "hash_validation" c = Some false)
  ∧ (m !! "ValidationResultsActiveManifestSuccessCode" = None →
     dict_get "validation_passed" c = Some false)
  ∧ (existing credit_fields m = [] → dict_get "explicit_ai_credit" a = Some false)
  ∧ (m !! "ActionsDescription" = None → dict_get "generative_actions" a = Some false)
  ∧ (m !! "DigitalSourceType" = None → dict_get "digital_source_type" a = Some false)
  ∧ (m !! "Claim_Generator_InfoName" = None →
     dict_get "creation_tools" a = Some false)
  ∧ (existing software_fields m = [] → dict_get "multiple_editors" t = Some false)
  ∧ (existing tampering_date_fields m = [] →
     dict_get "date_anomalies" t = Some false).

(** The entry a batch holds for one image file: what the analysis returned,
    or the error entry made from the exception it raised. *)
Definition file_entry (P : Platform) (directory_path filename : string) : entry :=
  match analyze_image P (path_join P directory_path filename) with
  | Ok r => r
  | Raise e => EError ("Failed to analyze " +:+ filename +:+ ": " +:+ exn_str P e)
  end.

(** A report with the outcomes the summary reads. *)
Definition summarizable (r : report) : Prop :=
  ∃ c h a,
    dict_get "c2pa" (detailed_checks r) = Some c
    ∧ dict_get "has_c2pa_manifest" c = Some h
    ∧ dict_get "ai" (detailed_checks r) = Some a.

(** The lines of the summary for a list of results. *)
Definition summary_lines (P : Platform) (results : list entry) : list string :=
  match valid_results results with
  | [] => ["No valid images analyzed"]
  | valid => summary_strings P (summary_of valid)
  end.

(** ** Rendering and the entry points for a back end *)

Section Rendering.

Context (P : Platform).
(** [os.path.basename] *)
Context (basename : string → string).

(** The line feed that ends some of the lines. *)
Definition nl : string := String "010" EmptyString.

(** The rating of [get_report_as_strings]. *)
Definition rating_of (score : float) : string :=
  if (80 <=? score)%float then "[EXCELLENT]"
  else if (60 <=? score)%float then "[GOOD]"
  else if (40 <=? score)%float then "[CAUTION]"
  else "[SUSPICIOUS]".

Definition get_report_as_strings (r : report) : result (list string) :=
  let score := authenticity_score r in
  let verdict := verdict r in
  (* Header *)
  let output_strings :=
    [PyStr.repeat_char "=" 50; "IMAGE AUTHENTICITY REPORT"; PyStr.repeat_char "=" 50] in
  (* Score and rating *)
  let rating := rating_of score in
  let output_strings :=
    output_strings ++
    ["Authenticity Confidence: " +:+ rating +:+ " (" +:+ fmt_1f P score +:+ "%)" +:+ nl;
     "Verdict: " +:+ verdict +:+ nl;
     (* File info *)
     "File: " +:+ basename (image_path r) +:+ nl;
     "Type: " +:+ py_str P (file_type r) +:+ " | Size: " +:+ py_str P (file_size r) +:+ nl;
     (* Key findings *)
     nl +:+ "KEY FINDINGS:"] in
  let checks := detailed_checks r in
  c2pa ← dict_item "c2pa" checks;
  has_c2pa_manifest ← dict_item "has_c2pa_manifest" c2pa;
  let output_strings :=
    output_strings ++
    [if has_c2pa_manifest : bool
     then "[PASS] Digital Provenance: This image has verified origin data" +:+ nl
     else "[FAIL] Digital Provenance: No verified origin data found" +:+ nl] in
  ai ← dict_item "ai" checks;
  let output_strings :=
    output_strings ++
    [if py_any (values ai)
     then "[AI] AI Indicators: Signs of AI generation detected" +:+ nl
     else "[NATURAL] Natural Image: No clear AI generation signs" +:+ nl] in
  tampering ← dict_item "tampering" checks;
  let output_strings :=
    output_strings ++
    [if py_any (values tampering)
     then "[WARNING] Editing Signs: Possible modifications detected" +:+ nl
     else "[OK] Minimal Editing: No significant alterations found" +:+ nl] in
  (* Recommendations *)
  let output_strings :=
    match recommendations r with
    | [] => output_strings
    | _ :: _ =>
        output_strings ++ [nl +:+ "RECOMMENDATIONS:"]
        ++ ((λ rec, "* " +:+ rec) <$> recommendations r)
    end in
  Ok output_strings.

Definition analyze_and_format_report (path : string) : result (list string) :=
  report ← analyze_image P path;
  match report with
  | EError message => Ok ["Error: " +:+ message]
  | EReport r => get_report_as_strings r
  end.

(** One turn of the [for report in individual_reports] loop. *)
Definition format_entry (all_output : list string) (e : entry)
  : result (list string) :=
  match e with
  | EError message => Ok (all_output ++ ["ERROR: " +:+ message])
  | EReport r =>
      report_strings ← get_report_as_strings r;
      Ok ((all_output ++ report_strings) ++ [""])
  end.

Fixpoint format_entries (reports : list entry) (all_output : list string)
  : result (list string) :=
  match reports with
  | [] => Ok all_output
  | e :: rest => all_output ← format_entry all_output e; format_entries rest all_output
  end.

Definition analyze_directory_with_summary (directory_path : string)
  : result (list string) :=
  individual_reports ← analyze_directory P directory_path;
  summary_strings ← generate_summary_report P individual_reports;
  all_output ← format_entries individual_reports [];
  Ok (all_output ++ summary_strings).

Definition quick_check (path : string) : result string :=
  report ← analyze_image P path;
  match report with
  | EError message => Ok ("Error analyzing image: " +:+ message)
  | EReport r =>
      let score := authenticity_score r in
      if (70 <=? score)%float
      then Ok ("PASS: Likely Authentic (" +:+ fmt_1f P score +:+ "%)")
      else if (50 <=? score)%float
      then Ok ("WARNING: Use with Caution (" +:+ fmt_1f P score +:+ "%)")
      else Ok ("FAIL: Potential Issues (" +:+ fmt_1f P score +:+ "%)")
  end.

Definition get_detailed_report (path : string) : result (list string) :=
  analyze_and_format_report path.

Definition batch_analyze_directory (directory_path : string) : result (list string) :=
  analyze_directory_with_summary directory_path.

End Rendering.

(** ** Readings of a report *)

(** The outcome of one check of a report, false when it is not there. *)
Definition report_flag (group key : string) (r : report) : bool :=
  match dict_get group (detailed_checks r) with
  | Some d => default false (dict_get key d)
  | None => false
  end.

(** The number of true outcomes of one group of a report. *)
Definition report_count (group : string) (r : report) : nat :=
  match dict_get group (detailed_checks r) with
  | Some d => sum_true (values d)
  | None => 0
  end.

Definition group_names : list string := ["integrity"; "c2pa"; "ai"; "tampering"].

(** ** The score in exact arithmetic

    The weighted sum with the weights 0.3, 0.4, 0.2 and 0.1 read as
    rationals, for groups of 4, 5, 4 and 4 keys. *)

From Stdlib Require QArith.

Module Exact.

Import Stdlib.QArith.QArith.
Local Open Scope Q_scope.

Definition ratio (n len : nat) : Q := inject_Z (Z.of_nat n) / inject_Z (Z.of_nat len).

Definition exact_score (ni nc na nt : nat) : Q :=
  (ratio ni 4 * (3 # 10) + ratio nc 5 * (4 # 10) + ratio na 4 * (2 # 10)
   + (1 - ratio nt 4) * (1 # 10)) * 100.

Definition exact_verdict (score : Q) : string :=
  if Qle_bool 80 score then "HIGH_CONFIDENCE_AUTHENTIC"
  else if Qle_bool 60 score then "MODERATE_CONFIDENCE"
  else if Qle_bool 40 score then "LOW_CONFIDENCE"
  else "POTENTIALLY_MANIPULATED".

End Exact.

(** Checks on the table of scores. *)
Definition verdict_is_exact (ni nc na nt : nat) : bool :=
  on_score (λ s, String.eqb (get_verdict s)
                   (Exact.exact_verdict (Exact.exact_score ni nc na nt)))
    (declared_score ni nc na nt).

Definition analysed_range (ni nc na nt : nat) : bool :=
  implb (nt <? 4)
    (on_score (λ s, (2.5 <=? s) && (s <? 100))%float (declared_score ni nc na nt)).

Definition high_needs (ni nc na nt : nat) : bool :=
  on_score (λ s, implb (80 <=? s)%float ((3 <=? nc) && (2 <=? ni)))
    (declared_score ni nc na nt).

Definition quick_bands (ni nc na nt : nat) : bool :=
  on_score (λ s,
    if (70 <=? s)%float
    then (60 <=? s)%float && negb (s <? 60)%float && negb (s <? 70)%float
    else if (50 <=? s)%float
    then (40 <=? s)%float && negb (80 <=? s)%float
    else negb (80 <=? s)%float && negb (60 <=? s)%float && (s <? 60)%float)
    (declared_score ni nc na nt).

(** The rating and the verdict that go together. *)
Definition rating_pairs : list (string * string) :=
  [("[EXCELLENT]", "HIGH_CONFIDENCE_AUTHENTIC"); ("[GOOD]", "MODERATE_CONFIDENCE");
   ("[CAUTION]", "LOW_CONFIDENCE"); ("[SUSPICIOUS]", "POTENTIALLY_MANIPULATED")].

(** The lines a batch prints for one entry. *)
Definition entry_block (P : Platform) (basename : string → string) (e : entry)
  : list string :=
  match e with
  | EError message => ["ERROR: " +:+ message]
  | EReport r =>
      match get_report_as_strings P basename r with
      | Ok report_strings => report_strings ++ [""]
      | Raise _ => []
      end
  end.

(** The outputs of ExifTool from which no record is extracted. *)
Definition extraction_fails (P : Platform) (path : string) : Prop :=
  match run_exiftool P path with
  | None => True
  | Some (returncode, stdout) =>
      returncode ≠ 0%Z ∨ stdout = None ∨ stdout = Some []
  end.

(** Strings of decimal digits. *)
Fixpoint all_digits (s : string) : bool :=
  match s with
  | EmptyString => true
  | String c s' => bool_decide (is_Some (PyStr.digit_of c)) && all_digits s'
  end.

(** Strings with a full stop. *)
Fixpoint has_dot (s : string) : bool :=
  match s with
  | EmptyString => false
  | String c s' => Ascii.eqb "." c || has_dot s'
  end.

(** ** The upload page of [fake_text.py]

    Of [home2], the branch taken when a file with a name was posted: the
    check of the extension, and the detailed report of the saved file.  The
    request, the creation of the directory and the saving are outside the
    model. *)

(** [s.rsplit('.', 1)[-1]]: the text after the last full stop, the whole of
    [s] when it has none. *)
Fixpoint after_last_dot (s : string) : string :=
  match s with
  | EmptyString => EmptyString
  | String c s' =>
      if has_dot s' then after_last_dot s'
      else if Ascii.eqb "." c then s' else String c s'
  end.

(** [ext in ('png', 'jpg', 'jpeg')] for the extension of the file name. *)
Definition upload_allowed (filename : string) : bool :=
  let ext := PyStr.lower (after_last_dot filename) in
  existsb (String.eqb ext) ["png"; "jpg"; "jpeg"].

Definition upload_result (P : Platform) (basename : string → string)
    (filename : string) : result string :=
  if negb (upload_allowed filename) then Ok "Only PNG or JPG files are allowed."
  else
    let filepath := "./uploads/" +:+ filename in
    lines ← get_detailed_report P basename filepath;
    Ok (PyStr.join nl lines).

(** ** More records for the test bench *)

Module Gallery.

(** A signed picture with validation codes and an AI disclosure. *)
Definition trusted : metadata :=
  {[ "FileType" := VStr "JPEG";
     "FileSize" := VStr "200 kB";
     "FileModifyDate" := VStr "2024:05:01 10:00:00";
     "FileCreateDate" := VStr "2024:05:01 10:00:00";
     "ClaimSignatureUrl" := VStr "self#jumbf=sig";
     "ActiveManifestHash" := VStr "9f2b";
     "ValidationResultsActiveManifestSuccessCode" := VList ["claimSignature.validated"];
     "DigitalSourceType" := VStr "digitalsourcetype/trainedAlgorithmicMedia";
     "Claim_Generator_InfoName" := VStr "Imagen";
     "Software" := VStr "Google AI" ]}.

(** A picture that went through three editors. *)
Definition edited : metadata :=
  {[ "Software" := VStr "Photoshop"; "ProcessingSoftware" := VStr "Lightroom";
     "CreatorTool" := VStr "GIMP" ]}.

(** A record with two fields. *)
Definition tiny : metadata :=
  {[ "FileType" := VStr "PNG"; "FileSize" := VStr "200 kB" ]}.

Definition platform : Platform :=
  {| float_of_str := float_of_str Bench.platform;
     float_str := float_str Bench.platform;
     str_repr := str_repr Bench.platform;
     fmt_1f := λ f, if (f =? 95)%float then "95.0" else fmt_1f Bench.platform f;
     exn_str := exn_str Bench.platform;
     path_join := path_join Bench.platform;
     listdir := listdir Bench.platform;
     run_exiftool := λ p,
       if String.eqb p "shots/trusted.jpg" then Some (0%Z, Some [trusted])
       else run_exiftool Bench.platform p;
     now := now Bench.platform |}.

Definition no_report : report :=
  {| timestamp := ""; image_path := ""; file_size := VStr ""; file_type := VStr "";
     authenticity_score := 0; verdict := ""; detailed_checks := [];
     recommendations := [] |}.

(** The report of a path, [no_report] when there is none. *)
Definition report_of (path : string) : report :=
  match analyze_image platform path with
  | Ok (EReport r) => r
  | _ => no_report
  end.

Definition camera_report : report := Eval vm_compute in report_of "shots/cam.jpg".

Definition trusted_report : report := Eval vm_compute in report_of "shots/trusted.jpg".

(** The picture of [Bench.small_png] with its size given in megabytes. *)
Definition small_mb : metadata := <["FileSize" := VStr "2.5 MB"]> Bench.small_png.

(** The bench platform with a [float] that reads the decimal 2.5. *)
Definition decimal_platform : Platform :=
  {| float_of_str := λ s, if String.eqb s "2.5" then Some 2.5%float
                          else float_of_str Bench.platform s;
     float_str := float_str Bench.platform;
     str_repr := str_repr Bench.platform;
     fmt_1f := fmt_1f Bench.platform;
     exn_str := exn_str Bench.platform;
     path_join := path_join Bench.platform;
     listdir := listdir Bench.platform;
     run_exiftool := run_exiftool Bench.platform;
     now := now Bench.platform |}.

(** Dates out of order, the first of them a bare year. *)
Definition bare_year : metadata :=
  {[ "DateTimeOriginal" := VInt 2025; "CreateDate" := VStr "2024:05:01 10:00:00";
     "ModifyDate" := VStr "2023:05:01 10:00:00" ]}.

End Gallery.

(** Numbers among the metadata values. *)
Definition is_number (v : value) : bool :=
  match v with
  | VInt _ | VFloat _ => true
  | _ => false
  end.

(** * Properties *)

#[local] Arguments PyStr.take : simpl never.
#[local] Arguments PyStr.contains : simpl never.
#[local] Arguments PyStr.lower : simpl never.
#[local] Arguments PyStr.int : simpl never.
#[local] Arguments PyStr.split_head : simpl never.

(** ** Dictionaries *)

Lemma dict_get_set_eq {V} k (v : V) d : dict_get k (dict_set k v d) = Some v.
Proof.
  induction d as [|[k' v'] d IH]; simpl.
  - by rewrite String.eqb_refl.
  - destruct (String.eqb k k') eqn:E; simpl; rewrite E; [done | apply IH].
Qed.

Lemma dict_get_set_ne {V} k k' (v : V) d :
  k ≠ k' → dict_get k' (dict_set k v d) = dict_get k' d.
Proof.
  intros Hne. induction d as [|[k0 v0] d IH]; simpl.
  - destruct (String.eqb k' k) eqn:E; [|done].
    apply String.eqb_eq in E. congruence.
  - destruct (String.eqb k k0) eqn:E; simpl.
    + apply String.eqb_eq in E as ->.
      destruct (String.eqb k' k0) eqn:E'; [|done].
      apply String.eqb_eq in E'. congruence.
    + by rewrite IH.
Qed.

Lemma keys_dict_set {V} k (v v0 : V) d :
  dict_get k d = Some v0 → keys (dict_set k v d) = keys d.
Proof.
  unfold keys. induction d as [|[k' v'] d IH]; simpl; [done|].
  destruct (String.eqb k k') eqn:E; simpl; [done|].
  intros H. f_equal. by apply IH.
Qed.

Lemma keys_length {V} (d : dict V) : length (keys d) = length d.
Proof. unfold keys. apply length_map. Qed.

Lemma sum_true_flip k d :
  dict_get k d = Some false →
  sum_true (values (dict_set k true d)) = S (sum_true (values d)).
Proof.
  unfold values. induction d as [|[k' v'] d IH]; simpl; [done|].
  destruct (String.eqb k k') eqn:E; simpl.
  - by intros [= ->].
  - intros H. apply IH in H. simpl in *. lia.
Qed.

Lemma sum_true_le l : sum_true l ≤ length l.
Proof. induction l as [|[] l IH]; simpl; lia. Qed.

Lemma py_any_sum l : py_any l = (0 <? sum_true l)%nat.
Proof.
  unfold py_any. induction l as [|[] l IH]; simpl; [done..|].
  by rewrite IH.
Qed.

Lemma py_any_false l : Forall (λ b, b = false) l → py_any l = false.
Proof.
  unfold py_any. induction 1 as [|b l -> _ IH]; simpl; [done|]. exact IH.
Qed.

(** ** The score as a function of counts *)

Lemma score_by_counts i c a t :
  calculate_authenticity_score i c a t =
  score_of_counts (sum_true (values i)) (length i) (sum_true (values c)) (length c)
                  (sum_true (values a)) (length a) (sum_true (values t)) (length t).
Proof.
  unfold calculate_authenticity_score, score_of_counts, integrity_score, c2pa_score,
    ai_score, tampering_score, group_ratio.
  by rewrite py_any_sum.
Qed.

Lemma all_counts_spec f ni nc na nt :
  all_counts f = true → ni ≤ 4 → nc ≤ 5 → na ≤ 4 → nt ≤ 4 → f ni nc na nt = true.
Proof.
  unfold all_counts. intros H Hi Hc Ha Ht.
  rewrite forallb_forall in H. specialize (H ni). rewrite in_seq in H.
  specialize (H ltac:(lia)).
  rewrite forallb_forall in H. specialize (H nc). rewrite in_seq in H.
  specialize (H ltac:(lia)).
  rewrite forallb_forall in H. specialize (H na). rewrite in_seq in H.
  specialize (H ltac:(lia)).
  rewrite forallb_forall in H. specialize (H nt). rewrite in_seq in H.
  exact (H ltac:(lia)).
Qed.

Lemma declared_counts i c a t :
  keys i = integrity_keys → keys c = c2pa_keys → keys a = ai_keys →
  keys t = tampering_keys →
  calculate_authenticity_score i c a t =
    declared_score (sum_true (values i)) (sum_true (values c))
                   (sum_true (values a)) (sum_true (values t))
  ∧ sum_true (values i) ≤ 4 ∧ sum_true (values c) ≤ 5
  ∧ sum_true (values a) ≤ 4 ∧ sum_true (values t) ≤ 4.
Proof.
  intros Hi Hc Ha Ht.
  pose proof (keys_length i) as Li. rewrite Hi in Li.
  pose proof (keys_length c) as Lc. rewrite Hc in Lc.
  pose proof (keys_length a) as La. rewrite Ha in La.
  pose proof (keys_length t) as Lt. rewrite Ht in Lt.
  simpl in Li, Lc, La, Lt.
  pose proof (sum_true_le (values i)) as Bi.
  pose proof (sum_true_le (values c)) as Bc.
  pose proof (sum_true_le (values a)) as Ba.
  pose proof (sum_true_le (values t)) as Bt.
  unfold values in Bi, Bc, Ba, Bt. rewrite length_map in Bi, Bc, Ba, Bt.
  rewrite score_by_counts. unfold declared_score.
  rewrite <- Li, <- Lc, <- La, <- Lt. unfold values. repeat split; lia.
Qed.

(** ** The checkers return dictionaries with the declared keys *)

Ltac run_checker :=
  repeat case_match; simplify_eq.

Lemma check_basic_integrity_keys P m r :
  check_basic_integrity P m = Ok r → keys r = integrity_keys.
Proof.
  unfold check_basic_integrity, py_in, py_split_head, py_int, py_float, mbind, result_bind.
  intros H. run_checker; reflexivity.
Qed.

Lemma check_c2pa_authenticity_keys P m r :
  check_c2pa_authenticity P m = Ok r → keys r = c2pa_keys.
Proof.
  unfold check_c2pa_authenticity, mbind, result_bind.
  intros H. run_checker; reflexivity.
Qed.

Lemma explicit_credit_loop (m : metadata) (hit : value → bool)
    (fields : list string) b :
  ∃ b',
    fold_left (λ ai_checks field,
      match m !! field with
      | Some v => if hit v then dict_set "explicit_ai_credit" true ai_checks
                  else ai_checks
      | None => ai_checks
      end) fields
      [("explicit_ai_credit", b); ("generative_actions", false);
       ("digital_source_type", false); ("creation_tools", false)]
    = [("explicit_ai_credit", b'); ("generative_actions", false);
       ("digital_source_type", false); ("creation_tools", false)]
    ∧ (b' = true → b = true ∨ ∃ f, f ∈ fields ∧ is_Some (m !! f)).
Proof.
  revert b. induction fields as [|f fields IH]; intros b; simpl.
  - eauto.
  - destruct (m !! f) as [v|] eqn:E.
    + destruct (hit v); simpl;
        [destruct (IH true) as (b' & -> & Hb) | destruct (IH b) as (b' & -> & Hb)];
        exists b'; (split; [done|]); intros Hb'; right.
      * exists f. split; [left|]; eauto.
      * destruct (Hb Hb') as [->|(f' & ? & ?)].
        -- exists f. split; [left|]; eauto.
        -- exists f'. split; [by right|done].
    + destruct (IH b) as (b' & -> & Hb). exists b'. split; [done|].
      intros Hb'. destruct (Hb Hb') as [?|(f' & ? & ?)]; [by left|].
      right. exists f'. split; [by right|done].
Qed.

Lemma check_ai_indicators_keys P m r :
  check_ai_indicators P m = Ok r → keys r = ai_keys.
Proof.
  unfold check_ai_indicators.
  destruct (explicit_credit_loop m (mentions_ai P) credit_fields false)
    as (b & Hloop & _).
  simpl fmap. rewrite Hloop. unfold mbind, result_bind.
  intros H. run_checker; reflexivity.
Qed.

Lemma check_tampering_indicators_keys m r :
  check_tampering_indicators m = Ok r → keys r = tampering_keys.
Proof.
  unfold check_tampering_indicators, mbind, result_bind.
  intros H. run_checker; reflexivity.
Qed.

(** ** Range of the score and bands of the verdict *)

Lemma declared_scores_ok :
  all_counts (λ ni nc na nt, on_score score_ok (declared_score ni nc na nt)) = true.
Proof. vm_compute. reflexivity. Qed.

Lemma in_band_verdicts s v : in_band s v → v ∈ verdicts.
Proof.
  unfold in_band, verdicts.
  intros [[-> _]|[[-> _]|[[-> _]|[-> _]]]]; set_solver.
Qed.

(** C1. For every metadata record on which the four checkers return, the
    score of their outcomes exists, lies between 0 and 100, and the verdict
    is the one band of the threshold table that holds the score; the lower
    bounds 80, 60 and 40 belong to the upper band. *)
Theorem score_in_range_verdict_in_band P m i c a t :
  check_basic_integrity P m = Ok i →
  check_c2pa_authenticity P m = Ok c →
  check_ai_indicators P m = Ok a →
  check_tampering_indicators m = Ok t →
  (∃ score,
      calculate_authenticity_score i c a t = Ok score
      ∧ (0 <=? score)%float = true ∧ (score <=? 100)%float = true
      ∧ in_band score (get_verdict score)
      ∧ ∀ v, in_band score v → v = get_verdict score)
  ∧ get_verdict 80 = "HIGH_CONFIDENCE_AUTHENTIC"
  ∧ get_verdict 60 = "MODERATE_CONFIDENCE"
  ∧ get_verdict 40 = "LOW_CONFIDENCE".
Proof.
  intros Hi Hc Ha Ht. split; [|by vm_compute].
  apply check_basic_integrity_keys in Hi.
  apply check_c2pa_authenticity_keys in Hc.
  apply check_ai_indicators_keys in Ha.
  apply check_tampering_indicators_keys in Ht.
  destruct (declared_counts i c a t Hi Hc Ha Ht) as (-> & Bi & Bc & Ba & Bt).
  pose proof (all_counts_spec _ _ _ _ _ declared_scores_ok Bi Bc Ba Bt) as Hok.
  simpl in Hok.
  destruct (declared_score _ _ _ _) as [score|]; [|done].
  exists score. unfold on_score, score_ok in Hok.
  apply andb_prop in Hok as [Hok Huniq].
  apply andb_prop in Hok as [Hok Hband].
  apply andb_prop in Hok as [H0 H100].
  apply bool_decide_eq_true in Hband.
  repeat split; try done.
  intros v Hv. rewrite forallb_forall in Huniq.
  specialize (Huniq v). rewrite <- list_elem_of_In in Huniq.
  specialize (Huniq (in_band_verdicts _ _ Hv)).
  rewrite bool_decide_eq_true_2 in Huniq by done.
  by apply bool_decide_eq_true in Huniq.
Qed.

(** ** Monotonicity *)

Lemma declared_flips_ordered : all_counts flips_ordered = true.
Proof. vm_compute. reflexivity. Qed.

Lemma le_scores_inv c1 c2 :
  le_scores c1 c2 = true → ∃ s s', c1 = Ok s ∧ c2 = Ok s' ∧ (s <=? s')%float = true.
Proof. destruct c1, c2; simpl; intros H; try done. eauto. Qed.

Lemma flip_counts k d ks :
  keys d = ks → dict_get k d = Some false →
  keys (dict_set k true d) = ks
  ∧ sum_true (values (dict_set k true d)) = S (sum_true (values d))
  ∧ S (sum_true (values d)) ≤ length ks.
Proof.
  intros Hk Hget.
  pose proof (keys_dict_set k true false d Hget) as Hk'.
  pose proof (sum_true_flip k d Hget) as Hs.
  pose proof (sum_true_le (values (dict_set k true d))) as Hle.
  unfold values in Hle at 2. rewrite length_map, <- keys_length, Hk', Hk, Hs in Hle.
  rewrite Hk' at 1. done.
Qed.

(** C3. With the other three groups fixed, turning one false outcome of the
    integrity, provenance or AI group into true does not lower the score,
    and turning one false outcome of the tampering group into true does not
    raise it. *)
Theorem flipping_one_check_is_monotone i c a t k :
  keys i = integrity_keys → keys c = c2pa_keys → keys a = ai_keys →
  keys t = tampering_keys →
  ∃ score,
    calculate_authenticity_score i c a t = Ok score
    ∧ (dict_get k i = Some false →
       ∃ score', calculate_authenticity_score (dict_set k true i) c a t = Ok score'
                 ∧ (score <=? score')%float = true)
    ∧ (dict_get k c = Some false →
       ∃ score', calculate_authenticity_score i (dict_set k true c) a t = Ok score'
                 ∧ (score <=? score')%float = true)
    ∧ (dict_get k a = Some false →
       ∃ score', calculate_authenticity_score i c (dict_set k true a) t = Ok score'
                 ∧ (score <=? score')%float = true)
    ∧ (dict_get k t = Some false →
       ∃ score', calculate_authenticity_score i c a (dict_set k true t) = Ok score'
                 ∧ (score' <=? score)%float = true).
Proof.
  intros Hi Hc Ha Ht.
  destruct (declared_counts i c a t Hi Hc Ha Ht) as (Hs & Bi & Bc & Ba & Bt).
  pose proof (all_counts_spec _ _ _ _ _ declared_scores_ok Bi Bc Ba Bt) as Hok.
  pose proof (all_counts_spec _ _ _ _ _ declared_flips_ordered Bi Bc Ba Bt) as Hflip.
  simpl in Hok. rewrite <- Hs in Hok.
  destruct (calculate_authenticity_score i c a t) as [score|] eqn:Hscore; [|done].
  exists score. split; [done|].
  unfold flips_ordered in Hflip.
  apply andb_prop in Hflip as [Hflip Hft].
  apply andb_prop in Hflip as [Hflip Hfa].
  apply andb_prop in Hflip as [Hfi Hfc].
  repeat split; intros Hget.
  - destruct (flip_counts k i _ Hi Hget) as (Hk' & Hsum & Hle). simpl in Hle.
    destruct (declared_counts _ c a t Hk' Hc Ha Ht) as (-> & _). rewrite Hsum.
    rewrite (proj2 (Nat.ltb_lt _ 4)) in Hfi by lia.
    apply le_scores_inv in Hfi as (s & s' & Hs1 & -> & Hle').
    exists s'. split; [done|]. congruence.
  - destruct (flip_counts k c _ Hc Hget) as (Hk' & Hsum & Hle). simpl in Hle.
    destruct (declared_counts i _ a t Hi Hk' Ha Ht) as (-> & _). rewrite Hsum.
    rewrite (proj2 (Nat.ltb_lt _ 5)) in Hfc by lia.
    apply le_scores_inv in Hfc as (s & s' & Hs1 & -> & Hle').
    exists s'. split; [done|]. congruence.
  - destruct (flip_counts k a _ Ha Hget) as (Hk' & Hsum & Hle). simpl in Hle.
    destruct (declared_counts i c _ t Hi Hc Hk' Ht) as (-> & _). rewrite Hsum.
    rewrite (proj2 (Nat.ltb_lt _ 4)) in Hfa by lia.
    apply le_scores_inv in Hfa as (s & s' & Hs1 & -> & Hle').
    exists s'. split; [done|]. congruence.
  - destruct (flip_counts k t _ Ht Hget) as (Hk' & Hsum & Hle). simpl in Hle.
    destruct (declared_counts i c a _ Hi Hc Ha Hk') as (-> & _). rewrite Hsum.
    rewrite (proj2 (Nat.ltb_lt _ 4)) in Hft by lia.
    apply le_scores_inv in Hft as (s & s' & -> & Hs2 & Hle').
    exists s. split; [done|]. congruence.
Qed.

(** ** Zero forcing of the provenance score *)

(** C5. When every outcome of the provenance group is false, the provenance
    score is the forced 0, its weighted term is 0, and the final score is
    the one computed with 0 in the place of that term. *)
Theorem all_false_provenance_is_forced_to_zero c :
  Forall (λ b, b = false) (values c) →
  c2pa_score c = Ok 0%float
  ∧ (0 * c2pa_weight)%float = 0%float
  ∧ ∀ i a t si sa st,
      integrity_score i = Ok si → ai_score a = Ok sa → tampering_score t = Ok st →
      calculate_authenticity_score i c a t =
        Ok (min_100 ((si * integrity_weight + 0 + sa * ai_weight
                      + st * tampering_weight) * 100)%float).
Proof.
  intros Hall. apply py_any_false in Hall.
  assert (c2pa_score c = Ok 0%float) as Hc by (unfold c2pa_score; by rewrite Hall).
  split; [done|]. split; [reflexivity|].
  intros i a t si sa st Hi Ha Ht.
  unfold calculate_authenticity_score. rewrite Hi, Hc, Ha, Ht. reflexivity.
Qed.

(** The forced 0 does not come from the ratio: on a group without keys the
    ratio is a division by zero and the provenance score is still 0. *)
Remark forced_zero_is_not_the_ratio :
  group_ratio [] = Raise ZeroDivisionError ∧ c2pa_score [] = Ok 0%float.
Proof. split; reflexivity. Qed.

(** ** The tampering checker *)

Lemma py_set_returns l seen :
  forallb (λ v, negb (is_list v)) l = true → ∃ s, py_set l seen = Ok s.
Proof.
  revert seen. induction l as [|v l IH]; intros seen; simpl; [eauto|].
  intros [Hv Hl]%andb_prop. destruct v; simpl in Hv; try done; by apply IH.
Qed.

Lemma py_set_raises l seen :
  forallb (λ v, negb (is_list v)) l = false → returns (py_set l seen) = false.
Proof.
  revert seen. induction l as [|v l IH]; intros seen; simpl; [done|].
  destruct v; simpl; try done; by apply IH.
Qed.

(** The value the [try] block leaves in [date_anomalies]. *)
Lemma check_tampering_indicators_eq m editors :
  py_set (software_used m) [] = Ok editors →
  check_tampering_indicators m =
    Ok [("inconsistent_software", false);
        ("multiple_editors", 2 <? length editors);
        ("metadata_stripping", (size m <? 10) && mem "FileType" m);
        ("date_anomalies",
         (2 <=? length (existing tampering_date_fields m))
         && match parse_years (existing tampering_date_fields m) [] with
            | Ok years => (2 <=? length years) && bool_decide (years ≠ sorted years)
            | Raise _ => false
            end)].
Proof.
  intros H. unfold check_tampering_indicators. rewrite H. simpl.
  repeat case_match; reflexivity.
Qed.

Lemma check_tampering_indicators_returns m :
  returns (check_tampering_indicators m) = hashable_software m.
Proof.
  unfold hashable_software.
  destruct (forallb _ (software_used m)) eqn:E.
  - destruct (py_set_returns _ [] E) as [s Hs].
    by rewrite (check_tampering_indicators_eq _ _ Hs).
  - apply (py_set_raises _ []) in E. unfold check_tampering_indicators.
    by destruct (py_set _ _).
Qed.

(** C8. Every result of the tampering checker holds the key
    [inconsistent_software] with the value false; the checker returns a
    result on every record whose software fields can be put in a set. *)
Theorem inconsistent_software_always_false (m : metadata) :
  (∀ r, check_tampering_indicators m = Ok r →
        dict_get "inconsistent_software" r = Some false)
  ∧ (hashable_software m = true →
     ∃ r, check_tampering_indicators m = Ok r
          ∧ dict_get "inconsistent_software" r = Some false).
Proof.
  assert (∀ r, check_tampering_indicators m = Ok r →
               dict_get "inconsistent_software" r = Some false) as Hkey.
  { intros r Hr. destruct (py_set (software_used m) []) as [editors|] eqn:E.
    - rewrite (check_tampering_indicators_eq _ _ E) in Hr. by simplify_eq.
    - unfold check_tampering_indicators in Hr. by rewrite E in Hr. }
  split; [done|].
  intros H. rewrite <- check_tampering_indicators_returns in H.
  destruct (check_tampering_indicators m) as [r|] eqn:E; [|done]. eauto.
Qed.

(** ** Date anomalies *)

Lemma insert_sorted_head x l : ascending (x :: l) = true → insert_sorted x l = x :: l.
Proof.
  revert x. induction l as [|y l IH]; intros x; [done|].
  intros H. change ((x <=? y)%Z && ascending (y :: l) = true) in H.
  apply andb_prop in H as [Hxy Hl]. apply Z.leb_le in Hxy.
  simpl. destruct (Z.ltb_spec x y); [done|].
  assert (x = y) as -> by lia. by rewrite IH.
Qed.

Lemma ascending_tail x l : ascending (x :: l) = true → ascending l = true.
Proof. destruct l; [done|]. by intros [_ H]%andb_prop. Qed.

Lemma sorted_fixes_ascending l : ascending l = true → sorted l = l.
Proof.
  induction l as [|x l IH]; [done|]. intros H. simpl.
  rewrite IH by by eapply ascending_tail. by apply insert_sorted_head.
Qed.

Lemma ascending_cons x y l :
  ascending (x :: y :: l) = (x <=? y)%Z && ascending (y :: l).
Proof. reflexivity. Qed.

Lemma insert_sorted_ascending x l :
  ascending l = true → ascending (insert_sorted x l) = true.
Proof.
  induction l as [|y l IH]; [done|]. intros H.
  cbn [insert_sorted]. destruct (Z.ltb_spec x y) as [Hlt|Hge].
  - rewrite ascending_cons, H, (proj2 (Z.leb_le x y)) by lia. done.
  - specialize (IH (ascending_tail _ _ H)).
    destruct l as [|z l].
    + cbn. rewrite andb_true_r. apply Z.leb_le. lia.
    + rewrite ascending_cons in H. apply andb_prop in H as [Hyz Hl].
      cbn [insert_sorted] in *. destruct (Z.ltb_spec x z).
      * rewrite (ascending_cons y x), IH, (proj2 (Z.leb_le y x)) by lia. done.
      * by rewrite (ascending_cons y z), Hyz, IH.
Qed.

Lemma sorted_ascending l : ascending (sorted l) = true.
Proof. induction l; [done|]. simpl. by apply insert_sorted_ascending. Qed.

Lemma unsorted_iff l : bool_decide (l ≠ sorted l) = negb (ascending l).
Proof.
  destruct (ascending l) eqn:E; simpl.
  - apply bool_decide_eq_false_2. intros H. by rewrite sorted_fixes_ascending in H.
  - apply bool_decide_eq_true_2. intros H.
    pose proof (sorted_ascending l) as Hs. rewrite <- H in Hs. congruence.
Qed.

Lemma parse_years_strings dates acc :
  match years_of dates with
  | Some years => parse_years (VStr <$> dates) acc = Ok (acc ++ years)
  | None => returns (parse_years (VStr <$> dates) acc) = false
  end.
Proof.
  revert acc. induction dates as [|date dates IH]; intros acc; simpl.
  - by rewrite app_nil_r.
  - destruct (PyStr.contains "202" date); simpl; [|apply IH].
    unfold py_int, leading_year.
    destruct (PyStr.int (PyStr.take 4 date)) as [y|]; simpl; [|done].
    specialize (IH (acc ++ [y])).
    destruct (years_of dates) as [ys|]; [|done].
    rewrite <- app_assoc in IH. exact IH.
Qed.

(** C7. On a record whose date fields hold strings, [date_anomalies] is the
    date rule applied to the values present among DateTimeOriginal,
    CreateDate and ModifyDate, in that order: false with fewer than two
    dates, false when a year does not parse, and otherwise true exactly when
    at least two years were read and they are not in ascending order. *)
Theorem date_anomalies_follow_the_rule (m : metadata) (dates : list string) :
  existing tampering_date_fields m = VStr <$> dates →
  hashable_software m = true →
  ∃ r, check_tampering_indicators m = Ok r
       ∧ dict_get "date_anomalies" r = Some (date_anomalies_rule dates).
Proof.
  intros Hdates Hhash. unfold hashable_software in Hhash.
  destruct (py_set_returns _ [] Hhash) as [editors Heds].
  rewrite (check_tampering_indicators_eq _ _ Heds), Hdates.
  eexists. split; [reflexivity|].
  match goal with |- context [("date_anomalies", ?x)] => set (flag := x) end.
  simpl. f_equal. subst flag. rewrite length_fmap. unfold date_anomalies_rule.
  pose proof (parse_years_strings dates []) as Hparse.
  destruct (Nat.ltb_spec (length dates) 2) as [Hlt|Hge].
  - by rewrite (proj2 (Nat.leb_gt _ _)) by lia.
  - rewrite (proj2 (Nat.leb_le _ _)) by lia. simpl.
    destruct (years_of dates) as [years|].
    + rewrite Hparse. simpl. by rewrite unsorted_iff.
    + by destruct (parse_years _ _).
Qed.

(** ** Recommendations *)

(** C6, as stated, fails: the strings of the code do not end in a full
    stop. *)
Lemma recommendations_without_full_stop :
  get_recommendations Bench.camera_checks 32.5 =
    Ok ["Exercise caution when using this image";
        "No digital provenance data found";
        "AI-generated content - verify intended use"]
  ∧ get_recommendations Bench.camera_checks 32.5 ≠
      Ok (recommendation_rules "." 32.5 false false true).
Proof. split; [reflexivity|]. vm_compute. discriminate. Qed.

(** C6, amended. [get_recommendations] applies the four rules in their
    order and returns the matching sentences, none of which ends in a full
    stop; the list may be empty. *)
Theorem recommendations_follow_the_rules checks score c t a
    (has_c2pa_manifest multiple_editors explicit_ai_credit : bool) :
  dict_get "c2pa" checks = Some c →
  dict_get "has_c2pa_manifest" c = Some has_c2pa_manifest →
  dict_get "tampering" checks = Some t →
  dict_get "multiple_editors" t = Some multiple_editors →
  dict_get "ai" checks = Some a →
  dict_get "explicit_ai_credit" a = Some explicit_ai_credit →
  get_recommendations checks score =
    Ok (recommendation_rules "" score has_c2pa_manifest multiple_editors
          explicit_ai_credit).
Proof.
  intros Hc Hh Ht Hm Ha He.
  unfold get_recommendations, dict_item, recommendation_rules.
  rewrite Hc. simpl. rewrite Hh. simpl. rewrite Ht. simpl. rewrite Hm. simpl.
  rewrite Ha. simpl. rewrite He. simpl.
  destruct (score <? 60)%float, has_c2pa_manifest, multiple_editors,
    explicit_ai_credit, (score <? 70)%float; reflexivity.
Qed.

(** ** The signed-manifest scenario *)

(** C2, as stated, fails: with the three outcomes true the provenance score
    is 3/5, not 2/5. *)
Lemma signed_scenario_scores_three_fifths :
  check_c2pa_authenticity Bench.platform Bench.signed =
    Ok [("has_c2pa_manifest", true); ("valid_signature", true);
        ("hash_validation", true); ("ai_disclosure", false);
        ("validation_passed", false)]
  ∧ (c ← check_c2pa_authenticity Bench.platform Bench.signed; c2pa_score c)
    = Ok 0.6%float
  ∧ (c ← check_c2pa_authenticity Bench.platform Bench.signed; c2pa_score c)
    ≠ Ok 0.4%float.
Proof.
  split; [by vm_compute|]. split; [by vm_compute|].
  vm_compute. intros H. assert (0.6 = 0.4)%float as H' by congruence.
  apply (f_equal (λ x, (x <? 0.5)%float)) in H'. vm_compute in H'. discriminate.
Qed.

Lemma has_manifest_by_signature_key P (m : metadata) :
  is_Some (m !! "ClaimSignatureUrl") →
  existsb (λ indicator,
    existsb (λ '(key, value),
      PyStr.contains (PyStr.lower indicator) (PyStr.lower key)
      || PyStr.contains (PyStr.lower indicator) (PyStr.lower (py_str P value)))
      (map_to_list m)) c2pa_indicators = true.
Proof.
  intros [v Hv]. apply existsb_exists. exists "ClaimSignatureUrl".
  split; [unfold c2pa_indicators; simpl; tauto|].
  apply existsb_exists. exists ("ClaimSignatureUrl", v).
  split; [apply list_elem_of_In, elem_of_map_to_list, Hv|].
  apply orb_true_intro. left. by vm_compute.
Qed.

(** C2, amended. A record with the fields ClaimSignatureUrl and
    ActiveManifestHash and without validation codes gives
    [has_c2pa_manifest], [valid_signature] and [hash_validation] true, and a
    provenance score of 3/5 = 0.6 (4/5 = 0.8 when a value also triggers
    [ai_disclosure]). *)
Theorem signed_manifest_scores_at_least_three_fifths P (m : metadata) :
  is_Some (m !! "ClaimSignatureUrl") →
  is_Some (m !! "ActiveManifestHash") →
  m !! "ValidationResultsActiveManifestSuccessCode" = None →
  ∃ disclosure c,
    check_c2pa_authenticity P m = Ok c
    ∧ c = [("has_c2pa_manifest", true); ("valid_signature", true);
           ("hash_validation", true); ("ai_disclosure", disclosure);
           ("validation_passed", false)]
    ∧ c2pa_score c = Ok (if disclosure then 0.8 else 0.6)%float.
Proof.
  intros Hsig Hhash Hcodes.
  unfold check_c2pa_authenticity. rewrite Hcodes.
  rewrite (has_manifest_by_signature_key P m Hsig).
  unfold mem. rewrite !bool_decide_eq_true_2 by done.
  eexists _, _. split; [reflexivity|]. split; [reflexivity|].
  destruct (existsb _ ai_keywords); reflexivity.
Qed.

(** ** Empty metadata *)

(** C10. An empty metadata record gives the same error result as a failed
    extraction, and a report is only produced from a record with at least
    one field. *)
Theorem empty_metadata_is_an_extraction_error P path :
  (extract_metadata P path = Some ∅ →
   analyze_image P path = Ok (EError "Could not extract metadata"))
  ∧ (extract_metadata P path = None →
     analyze_image P path = Ok (EError "Could not extract metadata"))
  ∧ (∀ r, analyze_image P path = Ok (EReport r) →
          ∃ m, extract_metadata P path = Some m ∧ 0 < size m).
Proof.
  unfold analyze_image. repeat split.
  - by intros ->.
  - by intros ->.
  - intros r H. destruct (extract_metadata P path) as [m|]; [|done].
    exists m. split; [done|].
    destruct (Nat.eqb_spec (size m) 0) as [E|E]; [done|lia].
Qed.

(** ** When the checkers return *)

Lemma check_basic_integrity_returns P m :
  returns (check_basic_integrity P m) = size_field_ok P m.
Proof.
  unfold check_basic_integrity, size_field_ok, py_in, py_split_head, py_int, py_float,
    mbind, result_bind.
  destruct (m !! "FileSize") as [[s|z|f|l]|]; cbv beta iota; try reflexivity.
  - destruct (PyStr.contains "kB" s); cbv beta iota.
    + by destruct (PyStr.int _).
    + destruct (PyStr.contains "MB" s); cbv beta iota; [|reflexivity].
      by destruct (float_of_str P _).
  - destruct (existsb (String.eqb "kB") l); cbv beta iota; [reflexivity|].
    by destruct (existsb (String.eqb "MB") l).
Qed.

Lemma any_m_total {A} (f : A → result bool) l :
  (∀ x, ∃ b, f x = Ok b) → ∃ b, any_m f l = Ok b.
Proof.
  intros Hf. induction l as [|x l [b IH]]; simpl; [eauto|].
  destruct (Hf x) as [[] ->]; simpl; eauto.
Qed.

Lemma check_c2pa_authenticity_returns P m :
  returns (check_c2pa_authenticity P m)
  = not_a_number "ValidationResultsActiveManifestSuccessCode" m.
Proof.
  unfold check_c2pa_authenticity, not_a_number.
  destruct (m !! "ValidationResultsActiveManifestSuccessCode") as [[s|z|f|l]|];
    try reflexivity.
  - destruct (any_m_total (λ critical, codes ← py_iter (VStr s);
                Ok (existsb (PyStr.contains critical) codes)) critical_validations)
      as [b ->]; [by eexists|reflexivity].
  - destruct (any_m_total (λ critical, codes ← py_iter (VList l);
                Ok (existsb (PyStr.contains critical) codes)) critical_validations)
      as [b ->]; [by eexists|reflexivity].
Qed.

Lemma check_ai_indicators_returns P m :
  returns (check_ai_indicators P m) = not_a_number "ActionsDescription" m.
Proof.
  unfold check_ai_indicators, not_a_number.
  destruct (explicit_credit_loop m (mentions_ai P) credit_fields false)
    as (b & Hloop & _).
  simpl fmap. rewrite Hloop.
  destruct (m !! "ActionsDescription") as [[s|z|f|l]|]; try reflexivity.
  - destruct (any_m_total (λ term, py_in term (VStr s)) ["generative"; "created"; "ai"])
      as [found ->]; [by eexists|reflexivity].
  - destruct (any_m_total (λ term, py_in term (VList l)) ["generative"; "created"; "ai"])
      as [found ->]; [by eexists|reflexivity].
Qed.

(** ** Absent fields *)

Lemma existing_nil (m : metadata) (fields : list string) :
  existing fields m = [] → ∀ f, f ∈ fields → m !! f = None.
Proof.
  unfold existing. induction fields as [|f0 fields IH]; simpl; [set_solver|].
  destruct (m !! f0) eqn:E; [done|].
  intros H f [->|Hf]%elem_of_cons; [done|by apply IH].
Qed.

Lemma integrity_absent P m i :
  check_basic_integrity P m = Ok i →
  (m !! "FileType" = None → dict_get "valid_file_type" i = Some false)
  ∧ (m !! "FileSize" = None → dict_get "reasonable_size" i = Some false)
  ∧ (existing ["FileModifyDate"; "FileCreateDate"; "DateTimeOriginal"] m = [] →
     dict_get "consistent_dates" i = Some false).
Proof.
  unfold check_basic_integrity, py_in, py_split_head, py_int, py_float, mbind, result_bind.
  intros H. repeat split; intros Habs; rewrite ?Habs in H;
    run_checker; reflexivity.
Qed.

Lemma provenance_absent P m c :
  check_c2pa_authenticity P m = Ok c →
  (m !! "ClaimSignatureUrl" = None → dict_get "valid_signature" c = Some false)
  ∧ (m !! "ActiveManifestHash" = None → dict_get "hash_validation" c = Some false)
  ∧ (m !! "ValidationResultsActiveManifestSuccessCode" = None →
     dict_get "validation_passed" c = Some false).
Proof.
  unfold check_c2pa_authenticity, mem, mbind, result_bind.
  intros H. repeat split; intros Habs; rewrite ?Habs in H;
    rewrite ?bool_decide_eq_false_2 in H by (by intros [? ?]);
    run_checker; reflexivity.
Qed.

Lemma ai_absent P m a :
  check_ai_indicators P m = Ok a →
  (existing credit_fields m = [] → dict_get "explicit_ai_credit" a = Some false)
  ∧ (m !! "ActionsDescription" = None → dict_get "generative_actions" a = Some false)
  ∧ (m !! "DigitalSourceType" = None → dict_get "digital_source_type" a = Some false)
  ∧ (m !! "Claim_Generator_InfoName" = None →
     dict_get "creation_tools" a = Some false).
Proof.
  unfold check_ai_indicators, mem.
  destruct (explicit_credit_loop m (mentions_ai P) credit_fields false)
    as (b & Hloop & Hb).
  simpl fmap. rewrite Hloop. unfold mbind, result_bind.
  intros H. repeat split; intros Habs.
  - assert (b = false) as ->.
    { destruct b; [|done]. destruct (Hb eq_refl) as [?|(f & Hf & [v Hv])]; [done|].
      by rewrite (existing_nil _ _ Habs f Hf) in Hv. }
    run_checker; reflexivity.
  - rewrite Habs in H. run_checker; reflexivity.
  - rewrite Habs in H. run_checker; reflexivity.
  - rewrite Habs in H. rewrite bool_decide_eq_false_2 in H by (by intros [? ?]).
    run_checker; reflexivity.
Qed.

Lemma tampering_absent m t :
  check_tampering_indicators m = Ok t →
  (m !! "FileType" = None → dict_get "metadata_stripping" t = Some false)
  ∧ (existing software_fields m = [] → dict_get "multiple_editors" t = Some false)
  ∧ (existing tampering_date_fields m = [] →
     dict_get "date_anomalies" t = Some false).
Proof.
  intros H. destruct (py_set (software_used m) []) as [editors|] eqn:E;
    [|unfold check_tampering_indicators in H; by rewrite E in H].
  rewrite (check_tampering_indicators_eq _ _ E) in H.
  match type of H with Ok ?x = Ok _ => assert (t = x) as -> by congruence end.
  split; [|split]; intros Habs.
  - unfold mem. rewrite Habs, bool_decide_eq_false_2 by (by intros [? ?]).
    rewrite andb_false_r. reflexivity.
  - assert (software_used m = []) as Hused.
    { pose proof (existing_nil _ _ Habs) as Hnone. unfold software_used, software_fields.
      simpl. rewrite !Hnone by set_solver. done. }
    rewrite Hused in E. simpl in E. injection E as <-. reflexivity.
  - rewrite Habs. reflexivity.
Qed.

(** C4. The integrity checker breaks the claim on a size in kilobytes
    written with a decimal point.  On the record SourceFile, FileType "PNG",
    FileSize "2.5 kB" it raises [ValueError] from [int("2.5")] where the
    claim has it return its result, and [analyze_image] lets the exception
    out; the other three checkers return on that record.  The sibling branch
    reads the same number in megabytes with [float] and returns, with
    [reasonable_size] true. *)
Theorem decimal_kilobytes_escape_the_integrity_checker :
  Bench.small_png !! "FileSize" = Some (VStr "2.5 kB")
  ∧ check_basic_integrity Gallery.decimal_platform Bench.small_png
    = Raise (ValueError "int" "2.5")
  ∧ analyze_image Gallery.decimal_platform "shots/small.png"
    = Raise (ValueError "int" "2.5")
  ∧ returns (check_c2pa_authenticity Gallery.decimal_platform Bench.small_png) = true
  ∧ returns (check_ai_indicators Gallery.decimal_platform Bench.small_png) = true
  ∧ returns (check_tampering_indicators Bench.small_png) = true
  ∧ Gallery.small_mb !! "FileSize" = Some (VStr "2.5 MB")
  ∧ check_basic_integrity Gallery.decimal_platform Gallery.small_mb
    = Ok [("valid_file_type", true); ("reasonable_size", true);
          ("has_metadata", false); ("consistent_dates", false)].
Proof. repeat split; by vm_compute. Qed.

(** Each checker lets an exception out on a field it cannot read: a number
    where it iterates or searches, a list where it builds a set, and a
    decimal size in kilobytes. *)
Lemma checkers_raise_on_malformed_fields :
  check_basic_integrity Bench.platform Bench.small_png = Raise (ValueError "int" "2.5")
  ∧ check_c2pa_authenticity Bench.platform Bench.numeric_codes
    = Raise (TypeError "iter" (VInt 0))
  ∧ check_ai_indicators Bench.platform Bench.numeric_actions
    = Raise (TypeError "in" (VInt 5))
  ∧ check_tampering_indicators Bench.listed_software
    = Raise (TypeError "hash" (VList ["GIMP"; "Krita"])).
Proof. repeat split; by vm_compute. Qed.

(** On a record that is [well_formed] each of the four checkers returns a
    result with all its declared keys, and a check whose fields are absent
    is false. *)
Lemma checkers_return_on_well_formed_records P m :
  well_formed P m = true →
  ∃ i c a t,
    check_basic_integrity P m = Ok i
    ∧ check_c2pa_authenticity P m = Ok c
    ∧ check_ai_indicators P m = Ok a
    ∧ check_tampering_indicators m = Ok t
    ∧ keys i = integrity_keys ∧ keys c = c2pa_keys
    ∧ keys a = ai_keys ∧ keys t = tampering_keys
    ∧ absent_fields_are_false m i c a t.
Proof.
  unfold well_formed. intros H.
  apply andb_prop in H as [H Ht]. apply andb_prop in H as [H Ha].
  apply andb_prop in H as [Hi Hc].
  rewrite <- check_basic_integrity_returns in Hi.
  rewrite <- (check_c2pa_authenticity_returns P) in Hc.
  rewrite <- (check_ai_indicators_returns P) in Ha.
  rewrite <- check_tampering_indicators_returns in Ht.
  destruct (check_basic_integrity P m) as [i|] eqn:Ei; [|done].
  destruct (check_c2pa_authenticity P m) as [c|] eqn:Ec; [|done].
  destruct (check_ai_indicators P m) as [a|] eqn:Ea; [|done].
  destruct (check_tampering_indicators m) as [t|] eqn:Et; [|done].
  exists i, c, a, t.
  destruct (integrity_absent _ _ _ Ei) as (? & ? & ?).
  destruct (provenance_absent _ _ _ Ec) as (? & ? & ?).
  destruct (ai_absent _ _ _ Ea) as (? & ? & ? & ?).
  destruct (tampering_absent _ _ Et) as (? & ? & ?).
  repeat split; eauto using check_basic_integrity_keys, check_c2pa_authenticity_keys,
    check_ai_indicators_keys, check_tampering_indicators_keys.
Qed.

(** ** Batch analysis *)

Lemma analyze_directory_loop P directory filenames results :
  fold_left (analyze_file P directory) filenames results
  = results ++ (file_entry P directory <$> List.filter is_image filenames).
Proof.
  revert results. induction filenames as [|f filenames IH]; intros results; simpl.
  - by rewrite app_nil_r.
  - rewrite IH. unfold analyze_file, file_entry.
    destruct (is_image f); simpl; [|done].
    destruct (analyze_image P _); by rewrite <- app_assoc.
Qed.

Lemma analyze_image_summarizable P path r :
  analyze_image P path = Ok (EReport r) → summarizable r.
Proof.
  unfold analyze_image, generate_report, mbind, result_bind.
  intros H.
  destruct (extract_metadata P path) as [m|]; [|done].
  destruct (size m =? 0); [done|].
  destruct (check_basic_integrity P m) as [i|]; [|done].
  destruct (check_c2pa_authenticity P m) as [c|] eqn:Ec; [|done].
  destruct (check_ai_indicators P m) as [a|]; [|done].
  destruct (check_tampering_indicators m) as [t|]; [|done].
  destruct (calculate_authenticity_score i c a t) as [score|]; [|done].
  destruct (get_recommendations _ score) as [recs|]; [|done].
  injection H as <-. simpl.
  apply check_c2pa_authenticity_keys in Ec.
  destruct c as [|[k h] c]; [done|]. injection Ec as -> _.
  exists ((("has_c2pa_manifest", h) :: c)), h, a. done.
Qed.

Lemma file_entry_summarizable P directory filename r :
  file_entry P directory filename = EReport r → summarizable r.
Proof.
  unfold file_entry. intros H.
  destruct (analyze_image P _) as [e|] eqn:E; [|done].
  subst e. by eapply analyze_image_summarizable.
Qed.

Lemma count_if_cons {A} (f : A → bool) x l :
  count_if f (x :: l) = (if f x then 1 else 0) + count_if f l.
Proof. unfold count_if. simpl. by destruct (f x). Qed.

Lemma summary_loop_counts valid scores s :
  Forall summarizable valid →
  summary_loop valid (scores, s) =
    Ok (scores ++ (authenticity_score <$> valid),
        {| total_images := total_images s;
           average_score := average_score s;
           high := high s + high (summary_of valid);
           medium := medium s + medium (summary_of valid);
           low := low s + low (summary_of valid);
           suspicious := suspicious s + suspicious (summary_of valid);
           c2pa_images := c2pa_images s + c2pa_images (summary_of valid);
           ai_generated_images :=
             ai_generated_images s + ai_generated_images (summary_of valid) |}).
Proof.
  intros Hall. revert scores s.
  induction Hall as [|r valid (c & h & a & Hc & Hh & Ha) _ IH]; intros scores s.
  - destruct s; simpl. rewrite app_nil_r. unfold count_if. simpl.
    by rewrite !Nat.add_0_r.
  - cbn [summary_loop]. unfold summary_step, dict_item.
    rewrite Hc, Ha. cbn [mbind result_bind]. rewrite Hh. cbn [mbind result_bind].
    rewrite IH. cbn [fmap list_fmap]. rewrite <- app_assoc.
    cbn [summary_of total_images average_score high medium low suspicious
         c2pa_images ai_generated_images].
    unfold count_verdict. rewrite !count_if_cons.
    unfold has_manifest, has_ai_indicator, get_verdict.
    rewrite Hc, Ha, Hh. cbn [default from_option]. cbv beta.
    destruct (80 <=? authenticity_score r)%float,
      (60 <=? authenticity_score r)%float, (40 <=? authenticity_score r)%float,
      h, (py_any (values a)); cbn -[count_if get_verdict];
      do 2 f_equal; f_equal; lia.
Qed.

Lemma generate_summary_report_eq P results :
  Forall summarizable (valid_results results) →
  generate_summary_report P results = Ok (summary_lines P results).
Proof.
  unfold generate_summary_report, summary_lines, summarize. intros Hall.
  destruct (valid_results results) as [|r valid] eqn:E; [done|].
  rewrite summary_loop_counts by done. cbn [mbind result_bind].
  cbn [total_images average_score high medium low suspicious c2pa_images
       ai_generated_images summary_of].
  rewrite !app_nil_l, fmap_cons. cbv beta iota.
  rewrite <- fmap_cons, length_fmap, !Nat.add_0_l. reflexivity.
Qed.

Lemma valid_results_fmap (f : string → entry) names :
  (∀ name r, f name = EReport r → summarizable r) →
  Forall summarizable (valid_results (f <$> names)).
Proof.
  intros Hf. unfold valid_results. induction names as [|name names IH]; simpl.
  - constructor.
  - destruct (f name) as [r|] eqn:E; [|done]. constructor; [by eapply Hf|done].
Qed.

Lemma elem_of_valid_results results r :
  r ∈ valid_results results ↔ EReport r ∈ results.
Proof.
  unfold valid_results. rewrite list_elem_of_omap. split.
  - intros ([r'|] & Hin & Heq); by simplify_eq.
  - intros Hin. by exists (EReport r).
Qed.

(** C9. The batch holds one entry for each image file of the directory, in
    order: the result of its analysis, or an error entry when the analysis
    raised, with the files after it still analysed.  The summary is the one
    of the reports among the entries (their number, mean score, histogram,
    provenance and AI counts); entries without a score do not enter it. *)
Theorem batch_isolates_failures_and_summarises_reports P directory filenames :
  listdir P directory = Some filenames →
  ∃ results,
    analyze_directory P directory = Ok results
    ∧ results = (file_entry P directory <$> List.filter is_image filenames)
    ∧ generate_summary_report P results = Ok (summary_lines P results)
    ∧ (∀ r, r ∈ valid_results results ↔ EReport r ∈ results)
    ∧ ∀ others, valid_results others = valid_results results →
                generate_summary_report P others = generate_summary_report P results.
Proof.
  intros Hdir. unfold analyze_directory. rewrite Hdir.
  rewrite analyze_directory_loop, app_nil_l.
  eexists. split; [reflexivity|]. split; [reflexivity|]. split; [|split].
  - apply generate_summary_report_eq, valid_results_fmap.
    intros name r. apply file_entry_summarizable.
  - intros r. apply elem_of_valid_results.
  - intros others Heq. unfold generate_summary_report. by rewrite Heq.
Qed.

(** * Further properties of the analysis *)

(** ** Reports of [analyze_image] *)

Lemma dict_get_in_keys {V} k (d : dict V) : In k (keys d) → is_Some (dict_get k d).
Proof.
  unfold keys. induction d as [|[k' v] d IH]; simpl; [done|].
  destruct (String.eqb_spec k k') as [->|Hne]; [by eexists|].
  intros [?|Hin]; [congruence|by apply IH].
Qed.

Lemma declared_score_returns i c a t :
  keys i = integrity_keys → keys c = c2pa_keys → keys a = ai_keys →
  keys t = tampering_keys →
  ∃ score, calculate_authenticity_score i c a t = Ok score ∧ score_ok score = true.
Proof.
  intros Hi Hc Ha Ht.
  destruct (declared_counts i c a t Hi Hc Ha Ht) as (-> & Bi & Bc & Ba & Bt).
  pose proof (all_counts_spec _ _ _ _ _ declared_scores_ok Bi Bc Ba Bt) as Hok.
  simpl in Hok. destruct (declared_score _ _ _ _) as [score|]; [|done]. eauto.
Qed.

Lemma get_recommendations_declared i c a t score :
  keys c = c2pa_keys → keys a = ai_keys → keys t = tampering_keys →
  ∃ has multiple explicit,
    dict_get "has_c2pa_manifest" c = Some has
    ∧ dict_get "multiple_editors" t = Some multiple
    ∧ dict_get "explicit_ai_credit" a = Some explicit
    ∧ get_recommendations
        [("integrity", i); ("c2pa", c); ("ai", a); ("tampering", t)] score
      = Ok (recommendation_rules "" score has multiple explicit).
Proof.
  intros Hc Ha Ht.
  destruct (dict_get_in_keys "has_c2pa_manifest" c) as [has Hh];
    [rewrite Hc; simpl; tauto|].
  destruct (dict_get_in_keys "multiple_editors" t) as [multiple Hm];
    [rewrite Ht; simpl; tauto|].
  destruct (dict_get_in_keys "explicit_ai_credit" a) as [explicit He];
    [rewrite Ha; simpl; tauto|].
  exists has, multiple, explicit. repeat (split; [done|]).
  unfold get_recommendations, dict_item, recommendation_rules. simpl.
  rewrite Hh. simpl. rewrite Hm. simpl. rewrite He. simpl.
  destruct (score <? 60)%float, has, multiple, explicit, (score <? 70)%float;
    reflexivity.
Qed.

Lemma analyze_image_inv P path r :
  analyze_image P path = Ok (EReport r) →
  ∃ m i c a t,
    extract_metadata P path = Some m ∧ size m ≠ 0
    ∧ check_basic_integrity P m = Ok i
    ∧ check_c2pa_authenticity P m = Ok c
    ∧ check_ai_indicators P m = Ok a
    ∧ check_tampering_indicators m = Ok t
    ∧ calculate_authenticity_score i c a t = Ok (authenticity_score r)
    ∧ detailed_checks r = [("integrity", i); ("c2pa", c); ("ai", a); ("tampering", t)]
    ∧ get_recommendations (detailed_checks r) (authenticity_score r)
      = Ok (recommendations r)
    ∧ verdict r = get_verdict (authenticity_score r)
    ∧ image_path r = path
    ∧ file_size r = default (VStr "Unknown") (m !! "FileSize")
    ∧ file_type r = default (VStr "Unknown") (m !! "FileType").
Proof.
  unfold analyze_image, generate_report, mbind, result_bind. intros H.
  destruct (extract_metadata P path) as [m|]; [|done].
  destruct (Nat.eqb_spec (size m) 0) as [|Hsize]; [done|].
  destruct (check_basic_integrity P m) as [i|] eqn:Hi; [|done].
  destruct (check_c2pa_authenticity P m) as [c|] eqn:Hc; [|done].
  destruct (check_ai_indicators P m) as [a|] eqn:Ha; [|done].
  destruct (check_tampering_indicators m) as [t|] eqn:Ht; [|done].
  destruct (calculate_authenticity_score i c a t) as [score|] eqn:Hs; [|done].
  destruct (get_recommendations _ score) as [recs|] eqn:Hrecs; [|done].
  match type of H with Ok (EReport ?x) = _ => assert (r = x) as -> by congruence end.
  exists m, i, c, a, t. simpl. by repeat split.
Qed.

(** X1. Every report of [analyze_image] is consistent with itself: it names
    the analysed path, its score lies between 0 and 100, its verdict is the
    band of that score, it holds the four groups with their declared keys,
    and its recommendations are those the four rules give for its score and
    its own check outcomes. *)
Theorem analyze_image_report_is_consistent P path r :
  analyze_image P path = Ok (EReport r) →
  image_path r = path
  ∧ (0 <=? authenticity_score r)%float = true
  ∧ (authenticity_score r <=? 100)%float = true
  ∧ verdict r = get_verdict (authenticity_score r)
  ∧ in_band (authenticity_score r) (verdict r)
  ∧ keys (detailed_checks r) = group_names
  ∧ (∃ i c a t,
       detailed_checks r = [("integrity", i); ("c2pa", c); ("ai", a); ("tampering", t)]
       ∧ keys i = integrity_keys ∧ keys c = c2pa_keys
       ∧ keys a = ai_keys ∧ keys t = tampering_keys)
  ∧ recommendations r =
      recommendation_rules "" (authenticity_score r)
        (report_flag "c2pa" "has_c2pa_manifest" r)
        (report_flag "tampering" "multiple_editors" r)
        (report_flag "ai" "explicit_ai_credit" r).
Proof.
  intros H.
  destruct (analyze_image_inv _ _ _ H)
    as (m & i & c & a & t & _ & _ & Hi & Hc & Ha & Ht & Hs & Hd & Hr & Hv & Hp & _).
  apply check_basic_integrity_keys in Hi. apply check_c2pa_authenticity_keys in Hc.
  apply check_ai_indicators_keys in Ha. apply check_tampering_indicators_keys in Ht.
  destruct (declared_score_returns i c a t Hi Hc Ha Ht) as (score & Hs' & Hok).
  rewrite Hs in Hs'. injection Hs' as <-.
  unfold score_ok in Hok.
  apply andb_prop in Hok as [Hok _]. apply andb_prop in Hok as [Hok Hband].
  apply andb_prop in Hok as [H0 H100]. apply bool_decide_eq_true in Hband.
  destruct (get_recommendations_declared i c a t (authenticity_score r) Hc Ha Ht)
    as (has & multiple & explicit & Hh & Hm & He & Hrules).
  rewrite Hd in Hr. rewrite Hr in Hrules. injection Hrules as Hrules.
  repeat split; try done.
  - by rewrite Hv.
  - by rewrite Hd.
  - by exists i, c, a, t.
  - unfold report_flag. rewrite Hd. simpl. by rewrite Hh, Hm, He.
Qed.

(** X2. [analyze_image] lets an exception out exactly on a non-empty record
    that is not well formed; on every other outcome of the extraction it
    returns (a report, or the error result). *)
Theorem analyze_image_returns_iff P path :
  returns (analyze_image P path) =
    match extract_metadata P path with
    | Some m => (size m =? 0) || well_formed P m
    | None => true
    end.
Proof.
  unfold analyze_image, well_formed.
  destruct (extract_metadata P path) as [m|]; [|done].
  destruct (size m =? 0); [done|]. simpl.
  rewrite <- check_basic_integrity_returns, <- (check_c2pa_authenticity_returns P),
    <- (check_ai_indicators_returns P), <- check_tampering_indicators_returns.
  unfold mbind, result_bind.
  destruct (check_basic_integrity P m) as [i|] eqn:Hi; [|done].
  destruct (check_c2pa_authenticity P m) as [c|] eqn:Hc; [|done].
  destruct (check_ai_indicators P m) as [a|] eqn:Ha; [|done].
  destruct (check_tampering_indicators m) as [t|] eqn:Ht; [|done].
  apply check_basic_integrity_keys in Hi. apply check_c2pa_authenticity_keys in Hc.
  apply check_ai_indicators_keys in Ha. apply check_tampering_indicators_keys in Ht.
  destruct (declared_score_returns i c a t Hi Hc Ha Ht) as (score & -> & _).
  unfold generate_report, mbind, result_bind.
  destruct (get_recommendations_declared i c a t score Hc Ha Ht)
    as (? & ? & ? & _ & _ & _ & ->).
  reflexivity.
Qed.

(** ** The scores that reports can hold *)

Lemma tampering_count_le_3 m t :
  check_tampering_indicators m = Ok t → sum_true (values t) ≤ 3.
Proof.
  intros H. destruct (py_set (software_used m) []) as [editors|] eqn:E;
    [|unfold check_tampering_indicators in H; by rewrite E in H].
  rewrite (check_tampering_indicators_eq _ _ E) in H.
  match type of H with Ok ?x = Ok _ => assert (t = x) as -> by congruence end.
  unfold values. cbn [map snd sum_true].
  repeat match goal with |- context [if ?b then 1 else 0] => destruct b end; lia.
Qed.

Lemma analyze_image_counts P path r :
  analyze_image P path = Ok (EReport r) →
  declared_score (report_count "integrity" r) (report_count "c2pa" r)
    (report_count "ai" r) (report_count "tampering" r)
  = Ok (authenticity_score r)
  ∧ report_count "integrity" r ≤ 4 ∧ report_count "c2pa" r ≤ 5
  ∧ report_count "ai" r ≤ 4 ∧ report_count "tampering" r ≤ 3.
Proof.
  intros H.
  destruct (analyze_image_inv _ _ _ H)
    as (m & i & c & a & t & _ & _ & Hi & Hc & Ha & Ht & Hs & Hd & _).
  pose proof (tampering_count_le_3 _ _ Ht) as Bt'.
  apply check_basic_integrity_keys in Hi. apply check_c2pa_authenticity_keys in Hc.
  apply check_ai_indicators_keys in Ha. apply check_tampering_indicators_keys in Ht.
  destruct (declared_counts i c a t Hi Hc Ha Ht) as (Hcalc & Bi & Bc & Ba & Bt).
  unfold report_count. rewrite Hd. simpl. rewrite <- Hcalc. done.
Qed.

Lemma on_report_counts (g : nat → nat → nat → nat → bool) P path r :
  all_counts g = true →
  analyze_image P path = Ok (EReport r) →
  g (report_count "integrity" r) (report_count "c2pa" r)
    (report_count "ai" r) (report_count "tampering" r) = true.
Proof.
  intros Hg H. destruct (analyze_image_counts _ _ _ H) as (_ & Bi & Bc & Ba & Bt).
  apply all_counts_spec; [done|lia..].
Qed.

Lemma declared_verdicts_exact : all_counts verdict_is_exact = true.
Proof. vm_compute. reflexivity. Qed.

Lemma declared_analysed_range : all_counts analysed_range = true.
Proof. vm_compute. reflexivity. Qed.

Lemma declared_high_needs : all_counts high_needs = true.
Proof. vm_compute. reflexivity. Qed.

Lemma declared_quick_bands : all_counts quick_bands = true.
Proof. vm_compute. reflexivity. Qed.

(** X3. Rounding never moves a verdict: for groups with the declared keys,
    the verdict of the binary64 score is the verdict of the weighted sum
    computed in exact rational arithmetic. *)
Theorem verdict_is_free_of_rounding i c a t :
  keys i = integrity_keys → keys c = c2pa_keys → keys a = ai_keys →
  keys t = tampering_keys →
  ∃ score,
    calculate_authenticity_score i c a t = Ok score
    ∧ get_verdict score =
        Exact.exact_verdict
          (Exact.exact_score (sum_true (values i)) (sum_true (values c))
             (sum_true (values a)) (sum_true (values t))).
Proof.
  intros Hi Hc Ha Ht.
  destruct (declared_counts i c a t Hi Hc Ha Ht) as (-> & Bi & Bc & Ba & Bt).
  pose proof (all_counts_spec _ _ _ _ _ declared_verdicts_exact Bi Bc Ba Bt) as Hok.
  unfold verdict_is_exact in Hok.
  destruct (declared_score _ _ _ _) as [score|]; [|done].
  exists score. split; [done|]. by apply String.eqb_eq.
Qed.

(** X4. The score of a report is never 0 and never 100: it is at least 2.5,
    because [inconsistent_software] is never true, and strictly below 100,
    so that the clamp [min(100, ...)] never changes it. *)
Theorem report_score_between_2_5_and_100 P path r :
  analyze_image P path = Ok (EReport r) →
  (2.5 <=? authenticity_score r)%float = true
  ∧ (authenticity_score r <? 100)%float = true.
Proof.
  intros H. pose proof (on_report_counts _ _ _ _ declared_analysed_range H) as Hg.
  destruct (analyze_image_counts _ _ _ H) as (Hs & _ & _ & _ & Bt).
  unfold analysed_range in Hg. rewrite Hs in Hg.
  rewrite (proj2 (Nat.ltb_lt _ 4)) in Hg by lia. simpl in Hg.
  by apply andb_prop in Hg.
Qed.

(** X5. A report is rated HIGH_CONFIDENCE_AUTHENTIC only when at least
    three of the five provenance checks and at least two of the four
    integrity checks hold. *)
Theorem high_confidence_needs_provenance P path r :
  analyze_image P path = Ok (EReport r) →
  verdict r = "HIGH_CONFIDENCE_AUTHENTIC" →
  3 ≤ report_count "c2pa" r ∧ 2 ≤ report_count "integrity" r.
Proof.
  intros H Hv. pose proof (on_report_counts _ _ _ _ declared_high_needs H) as Hg.
  destruct (analyze_image_counts _ _ _ H) as (Hs & _).
  destruct (analyze_image_inv _ _ _ H) as (? & ? & ? & ? & ? & Hinv).
  destruct Hinv as (_ & _ & _ & _ & _ & _ & _ & _ & _ & Hverdict & _).
  unfold high_needs in Hg. rewrite Hs in Hg. unfold on_score in Hg.
  rewrite Hverdict in Hv. unfold get_verdict in Hv.
  destruct (80 <=? authenticity_score r)%float.
  - cbn [implb] in Hg. apply andb_prop in Hg as [Hc Hi].
    apply Nat.leb_le in Hc, Hi. done.
  - repeat case_match; discriminate.
Qed.

(** ** The quick check *)

Lemma report_recommendations P path r :
  analyze_image P path = Ok (EReport r) →
  verdict r = get_verdict (authenticity_score r)
  ∧ recommendations r =
      recommendation_rules "" (authenticity_score r)
        (report_flag "c2pa" "has_c2pa_manifest" r)
        (report_flag "tampering" "multiple_editors" r)
        (report_flag "ai" "explicit_ai_credit" r).
Proof.
  intros H.
  destruct (analyze_image_inv _ _ _ H)
    as (m & i & c & a & t & _ & _ & _ & Hc & Ha & Ht & _ & Hd & Hr & Hv & _).
  apply check_c2pa_authenticity_keys in Hc.
  apply check_ai_indicators_keys in Ha. apply check_tampering_indicators_keys in Ht.
  destruct (get_recommendations_declared i c a t (authenticity_score r) Hc Ha Ht)
    as (has & multiple & explicit & Hh & Hm & He & Hrules).
  rewrite Hd in Hr. rewrite Hr in Hrules. injection Hrules as Hrules.
  split; [done|]. unfold report_flag. rewrite Hd. simpl. by rewrite Hh, Hm, He.
Qed.

Ltac not_listed :=
  let Hin := fresh in
  intros Hin;
  repeat (apply elem_of_cons in Hin as [Hin|Hin]; [discriminate|]);
  by apply elem_of_nil in Hin.

(** X6. The quick check agrees with the verdict.  It says PASS only for a
    report rated HIGH or MODERATE, which then carries neither the caution
    nor the AI recommendation; WARNING only for MODERATE or LOW; and FAIL
    only for LOW or POTENTIALLY_MANIPULATED, where the caution is always
    recommended. *)
Theorem quick_check_agrees_with_verdict P path r :
  analyze_image P path = Ok (EReport r) →
  (quick_check P path
     = Ok ("PASS: Likely Authentic (" +:+ fmt_1f P (authenticity_score r) +:+ "%)")
   ∧ (verdict r = "HIGH_CONFIDENCE_AUTHENTIC" ∨ verdict r = "MODERATE_CONFIDENCE")
   ∧ ("Exercise caution when using this image" ∉ recommendations r)
   ∧ ("AI-generated content - verify intended use" ∉ recommendations r))
  ∨ (quick_check P path
       = Ok ("WARNING: Use with Caution (" +:+ fmt_1f P (authenticity_score r) +:+ "%)")
     ∧ (verdict r = "MODERATE_CONFIDENCE" ∨ verdict r = "LOW_CONFIDENCE"))
  ∨ (quick_check P path
       = Ok ("FAIL: Potential Issues (" +:+ fmt_1f P (authenticity_score r) +:+ "%)")
     ∧ (verdict r = "LOW_CONFIDENCE" ∨ verdict r = "POTENTIALLY_MANIPULATED")
     ∧ ("Exercise caution when using this image" ∈ recommendations r)).
Proof.
  intros H. pose proof (on_report_counts _ _ _ _ declared_quick_bands H) as Hg.
  destruct (analyze_image_counts _ _ _ H) as (Hs & _).
  destruct (report_recommendations _ _ _ H) as (-> & ->).
  unfold quick_bands in Hg. rewrite Hs in Hg. unfold on_score in Hg.
  unfold quick_check. rewrite H. cbn [mbind result_bind].
  unfold get_verdict, recommendation_rules.
  destruct (70 <=? authenticity_score r)%float; [|destruct (50 <=? authenticity_score r)%float].
  - left. apply andb_prop in Hg as [Hg H70]. apply andb_prop in Hg as [H60 H60'].
    apply negb_true_iff in H70, H60'. rewrite H60, H60', H70, andb_false_r.
    split; [done|]. split; [destruct (80 <=? _)%float; auto|].
    split; destruct (report_flag "c2pa" _ r), (report_flag "tampering" _ r);
      cbn; not_listed.
  - right. left. apply andb_prop in Hg as [H40 H80]. apply negb_true_iff in H80.
    rewrite H40, H80. split; [done|]. destruct (60 <=? _)%float; auto.
  - right. right. apply andb_prop in Hg as [Hg H60']. apply andb_prop in Hg as [H80 H60].
    apply negb_true_iff in H60, H80. rewrite H60, H60', H80.
    split; [done|]. split; [destruct (40 <=? _)%float; auto|].
    cbn. set_solver.
Qed.

(** ** The rendered report *)

Lemma report_lookups P path r :
  analyze_image P path = Ok (EReport r) →
  ∃ c a t,
    dict_get "c2pa" (detailed_checks r) = Some c
    ∧ dict_get "has_c2pa_manifest" c = Some (report_flag "c2pa" "has_c2pa_manifest" r)
    ∧ dict_get "ai" (detailed_checks r) = Some a
    ∧ dict_get "tampering" (detailed_checks r) = Some t.
Proof.
  intros H.
  destruct (analyze_image_inv _ _ _ H)
    as (m & i & c & a & t & _ & _ & _ & Hc & _ & _ & _ & Hd & _).
  apply check_c2pa_authenticity_keys in Hc.
  destruct (dict_get_in_keys "has_c2pa_manifest" c) as [has Hh];
    [rewrite Hc; simpl; tauto|].
  exists c, a, t. unfold report_flag. rewrite Hd. simpl. by rewrite Hh.
Qed.

Lemma rendered_report_lines P basename path r :
  analyze_image P path = Ok (EReport r) →
  ∃ lines, get_report_as_strings P basename r = Ok lines.
Proof.
  intros H. destruct (report_lookups _ _ _ H) as (c & a & t & Hc & Hh & Ha & Ht).
  unfold get_report_as_strings, dict_item.
  rewrite Hc, Ha, Ht. cbn [mbind result_bind]. rewrite Hh. cbn [mbind result_bind].
  eauto.
Qed.

Lemma rating_pairs_with_verdict score :
  (rating_of score, get_verdict score) ∈ rating_pairs.
Proof.
  unfold rating_of, get_verdict, rating_pairs.
  destruct (80 <=? score)%float; [set_solver|].
  destruct (60 <=? score)%float; [set_solver|].
  destruct (40 <=? score)%float; set_solver.
Qed.

(** X7. Rendering a report of [analyze_image] never fails.  The text has 11
    lines, followed, when there are recommendations, by a heading and one
    line for each; the rating shown goes with the verdict shown (EXCELLENT
    with HIGH, GOOD with MODERATE, CAUTION with LOW, SUSPICIOUS with
    POTENTIALLY_MANIPULATED); and the provenance finding reads FAIL exactly
    when the missing provenance is among the recommendations. *)
Theorem rendered_report_is_consistent P basename path r :
  analyze_image P path = Ok (EReport r) →
  ∃ lines,
    get_report_as_strings P basename r = Ok lines
    ∧ length lines
      = 11 + match recommendations r with
             | [] => 0
             | _ :: _ => S (length (recommendations r))
             end
    ∧ lines !! 3
      = Some ("Authenticity Confidence: " +:+ rating_of (authenticity_score r)
              +:+ " (" +:+ fmt_1f P (authenticity_score r) +:+ "%)" +:+ nl)
    ∧ lines !! 4 = Some ("Verdict: " +:+ verdict r +:+ nl)
    ∧ (rating_of (authenticity_score r), verdict r) ∈ rating_pairs
    ∧ (lines !! 8
       = Some ("[FAIL] Digital Provenance: No verified origin data found" +:+ nl)
       ↔ "No digital provenance data found" ∈ recommendations r).
Proof.
  intros H.
  destruct (report_lookups _ _ _ H) as (c & a & t & Hc & Hh & Ha & Ht).
  destruct (report_recommendations _ _ _ H) as (Hv & Hrecs).
  unfold get_report_as_strings, dict_item.
  rewrite Hc, Ha, Ht. cbn [mbind result_bind]. rewrite Hh. cbn [mbind result_bind].
  eexists. split; [reflexivity|].
  split; [|split; [|split; [|split]]].
  - destruct (recommendations r); [reflexivity|].
    rewrite !length_app, length_fmap. cbn [length]. lia.
  - destruct (recommendations r); reflexivity.
  - destruct (recommendations r); reflexivity.
  - rewrite Hv. apply rating_pairs_with_verdict.
  - assert (∀ rest : list string,
              ([PyStr.repeat_char "=" 50; "IMAGE AUTHENTICITY REPORT";
                PyStr.repeat_char "=" 50] ++
               ["Authenticity Confidence: " +:+ rating_of (authenticity_score r)
                +:+ " (" +:+ fmt_1f P (authenticity_score r) +:+ "%)" +:+ nl;
                "Verdict: " +:+ verdict r +:+ nl;
                "File: " +:+ basename (image_path r) +:+ nl;
                "Type: " +:+ py_str P (file_type r) +:+ " | Size: "
                +:+ py_str P (file_size r) +:+ nl;
                nl +:+ "KEY FINDINGS:"] ++
               [if report_flag "c2pa" "has_c2pa_manifest" r
                then "[PASS] Digital Provenance: This image has verified origin data" +:+ nl
                else "[FAIL] Digital Provenance: No verified origin data found" +:+ nl]
               ++ rest) !! 8
              = Some (if report_flag "c2pa" "has_c2pa_manifest" r
                      then "[PASS] Digital Provenance: This image has verified origin data" +:+ nl
                      else "[FAIL] Digital Provenance: No verified origin data found" +:+ nl))
      as Hline by reflexivity.
    match goal with |- ?l !! 8 = _ ↔ _ =>
      assert (l !! 8 = Some (if report_flag "c2pa" "has_c2pa_manifest" r
                then "[PASS] Digital Provenance: This image has verified origin data" +:+ nl
                else "[FAIL] Digital Provenance: No verified origin data found" +:+ nl))
        as ->
    end.
    { destruct (recommendations r); rewrite <- !app_assoc; apply Hline. }
    rewrite Hrecs. unfold recommendation_rules.
    destruct (report_flag "c2pa" "has_c2pa_manifest" r); cbn [negb].
    + split; [intros [=]|].
      destruct (authenticity_score r <? 60)%float, (report_flag "tampering" _ r),
        (report_flag "ai" _ r && (authenticity_score r <? 70)%float); cbn; not_listed.
    + split; [|done]. intros _.
      destruct (authenticity_score r <? 60)%float; cbn; set_solver.
Qed.

(** ** The batch output *)

Lemma format_entries_eq P basename results acc :
  (∀ r, EReport r ∈ results → returns (get_report_as_strings P basename r) = true) →
  format_entries P basename results acc
  = Ok (acc ++ concat (entry_block P basename <$> results)).
Proof.
  revert acc. induction results as [|e results IH]; intros acc Hret.
  - simpl. by rewrite app_nil_r.
  - cbn [format_entries fmap list_fmap concat].
    assert (format_entry P basename acc e = Ok (acc ++ entry_block P basename e)) as ->.
    { destruct e as [r|message]; simpl; [|done].
      specialize (Hret r ltac:(left)).
      destruct (get_report_as_strings P basename r); [|done].
      simpl. by rewrite app_assoc. }
    cbn [mbind result_bind]. rewrite IH, <- app_assoc; [done|].
    intros r Hr. apply Hret. by right.
Qed.

Lemma elem_of_file_entries P directory (names : list string) r :
  EReport r ∈ (file_entry P directory <$> names) →
  ∃ path, analyze_image P path = Ok (EReport r).
Proof.
  intros (name & Heq & _)%list_elem_of_fmap. unfold file_entry in Heq.
  destruct (analyze_image P _) as [e|] eqn:E; [|done]. subst e. eauto.
Qed.

(** X8. Whenever the directory can be listed, the batch entry point returns:
    its output is the block of every entry in listing order (the rendered
    report and an empty line, or one ERROR line), followed by the summary of
    the same results. *)
Theorem batch_output_is_blocks_then_summary P basename directory filenames :
  listdir P directory = Some filenames →
  ∃ results,
    analyze_directory P directory = Ok results
    ∧ batch_analyze_directory P basename directory
      = Ok (concat (entry_block P basename <$> results) ++ summary_lines P results)
    ∧ ∀ e, e ∈ results →
        match e with
        | EError message => entry_block P basename e = ["ERROR: " +:+ message]
        | EReport r =>
            ∃ lines, get_report_as_strings P basename r = Ok lines
                     ∧ entry_block P basename e = lines ++ [""]
        end.
Proof.
  intros Hdir.
  unfold batch_analyze_directory, analyze_directory_with_summary, analyze_directory.
  rewrite Hdir, analyze_directory_loop, app_nil_l.
  eexists. split; [reflexivity|].
  assert (∀ r, EReport r ∈ (file_entry P directory <$> List.filter is_image filenames) →
               ∃ lines, get_report_as_strings P basename r = Ok lines) as Hlines.
  { intros r [path Hpath]%elem_of_file_entries.
    destruct (rendered_report_lines P basename path r Hpath) as [lines Hl]. eauto. }
  split.
  - cbn [mbind result_bind].
    rewrite generate_summary_report_eq
      by (apply valid_results_fmap; intros name r; apply file_entry_summarizable).
    cbn [mbind result_bind].
    rewrite format_entries_eq; [done|].
    intros r Hr. destruct (Hlines r Hr) as [lines ->]. done.
  - intros [r|message] He; [|done].
    destruct (Hlines r He) as [lines Hl]. exists lines. split; [done|].
    simpl. by rewrite Hl.
Qed.

(** ** Failed extraction *)

Lemma extraction_fails_none P path :
  extraction_fails P path → extract_metadata P path = None.
Proof.
  unfold extraction_fails, extract_metadata.
  destruct (run_exiftool P path) as [[returncode stdout]|]; [|done].
  destruct (Z.eqb_spec returncode 0) as [->|]; [|done].
  intros [?|[->| ->]]; done.
Qed.

(** X9. A time-out or a missing executable, a non-zero return code, an
    output that does not parse and an output without records all end in the
    same error message at every entry point, and never in an exception:
    the quick check, the detailed report, and the entry and line of the file
    in a batch. *)
Theorem failed_extraction_is_reported P basename directory filename :
  extraction_fails P (path_join P directory filename) →
  quick_check P (path_join P directory filename)
    = Ok "Error analyzing image: Could not extract metadata"
  ∧ get_detailed_report P basename (path_join P directory filename)
    = Ok ["Error: Could not extract metadata"]
  ∧ file_entry P directory filename = EError "Could not extract metadata"
  ∧ entry_block P basename (file_entry P directory filename)
    = ["ERROR: Could not extract metadata"].
Proof.
  intros H%extraction_fails_none.
  unfold quick_check, get_detailed_report, analyze_and_format_report, file_entry,
    analyze_image.
  rewrite H. by repeat split.
Qed.

(** ** The histogram of the summary *)

Lemma summary_step_counts scores s r scores' s' :
  summary_step (scores, s) r = Ok (scores', s') →
  length scores' = S (length scores)
  ∧ total_images s' = total_images s
  ∧ high s' + medium s' + low s' + suspicious s'
    = S (high s + medium s + low s + suspicious s)
  ∧ c2pa_images s ≤ c2pa_images s' ≤ S (c2pa_images s)
  ∧ ai_generated_images s ≤ ai_generated_images s' ≤ S (ai_generated_images s).
Proof.
  unfold summary_step, dict_item, mbind, result_bind. intros H.
  destruct (dict_get "c2pa" (detailed_checks r)) as [c|]; [|done].
  destruct (dict_get "has_c2pa_manifest" c) as [has|]; [|done].
  destruct (dict_get "ai" (detailed_checks r)) as [a|]; [|done].
  injection H as <- <-. rewrite length_app. cbn [length].
  destruct (80 <=? authenticity_score r)%float,
    (60 <=? authenticity_score r)%float, (40 <=? authenticity_score r)%float,
    has, (py_any (values a)); cbn; lia.
Qed.

Lemma summary_loop_invariant valid scores s scores' s' :
  summary_loop valid (scores, s) = Ok (scores', s') →
  length scores' = length scores + length valid
  ∧ total_images s' = total_images s
  ∧ high s' + medium s' + low s' + suspicious s'
    = high s + medium s + low s + suspicious s + length valid
  ∧ c2pa_images s' ≤ c2pa_images s + length valid
  ∧ ai_generated_images s' ≤ ai_generated_images s + length valid.
Proof.
  revert scores s. induction valid as [|r valid IH]; intros scores s H.
  - injection H as <- <-. cbn [length]. lia.
  - cbn [summary_loop mbind result_bind] in H.
    destruct (summary_step (scores, s) r) as [[scores1 s1]|] eqn:Hstep; [|done].
    apply summary_step_counts in Hstep. apply IH in H. cbn [length]. lia.
Qed.

(** X10. In the summary of a batch the four histogram counts add up to the
    number of images analysed, which is the number of reports, and neither
    the provenance count nor the AI count exceeds it. *)
Theorem summary_histogram_partitions valid s :
  summarize valid = Ok s →
  total_images s = length valid
  ∧ high s + medium s + low s + suspicious s = total_images s
  ∧ c2pa_images s ≤ total_images s
  ∧ ai_generated_images s ≤ total_images s.
Proof.
  unfold summarize. cbn [mbind result_bind]. intros H.
  destruct (summary_loop valid _) as [[scores s1]|] eqn:Hloop; [|done].
  apply summary_loop_invariant in Hloop. cbn in Hloop.
  destruct scores; injection H as <-; cbn; lia.
Qed.

(** ** Relations between the checks *)

Lemma check_c2pa_authenticity_inv P m c :
  check_c2pa_authenticity P m = Ok c →
  ∃ passed,
    c = [("has_c2pa_manifest",
          existsb (λ indicator,
            existsb (λ '(key, value),
              PyStr.contains (PyStr.lower indicator) (PyStr.lower key)
              || PyStr.contains (PyStr.lower indicator) (PyStr.lower (py_str P value)))
              (map_to_list m)) c2pa_indicators);
         ("valid_signature", mem "ClaimSignatureUrl" m);
         ("hash_validation", mem "ActiveManifestHash" m);
         ("ai_disclosure",
          existsb (λ keyword,
            existsb (λ value, PyStr.contains keyword (PyStr.lower (py_str P value)))
              (map_to_list m).*2) ai_keywords);
         ("validation_passed", passed)].
Proof.
  unfold check_c2pa_authenticity, mbind, result_bind. intros H.
  destruct (m !! "ValidationResultsActiveManifestSuccessCode").
  - destruct (any_m _ critical_validations) as [passed|]; [|done].
    exists passed. by injection H as <-.
  - exists false. by injection H as <-.
Qed.

(** X11. In every result of the provenance checker, a present signature
    field implies a manifest: [valid_signature] true gives
    [has_c2pa_manifest] true. *)
Theorem valid_signature_implies_manifest P m c :
  check_c2pa_authenticity P m = Ok c →
  dict_get "valid_signature" c = Some true →
  dict_get "has_c2pa_manifest" c = Some true.
Proof.
  intros [passed ->]%check_c2pa_authenticity_inv.
  cbn [dict_get String.eqb Ascii.eqb Bool.eqb]. intros [= Hmem]. f_equal.
  apply has_manifest_by_signature_key. unfold mem in Hmem.
  by apply bool_decide_eq_true in Hmem.
Qed.

Lemma check_ai_indicators_source_type P m a :
  check_ai_indicators P m = Ok a →
  dict_get "digital_source_type" a = Some true →
  ∃ v, m !! "DigitalSourceType" = Some v
       ∧ PyStr.contains "algorithmicmedia" (PyStr.lower (py_str P v)) = true.
Proof.
  unfold check_ai_indicators.
  destruct (explicit_credit_loop m (mentions_ai P) credit_fields false)
    as (b & Hloop & _).
  simpl fmap. rewrite Hloop. unfold mbind, result_bind. intros H Hget.
  destruct (m !! "DigitalSourceType") as [v|] eqn:Hv.
  - exists v. split; [done|].
    destruct (PyStr.contains "algorithmicmedia" (PyStr.lower (py_str P v))); [done|].
    run_checker; discriminate.
  - run_checker; discriminate.
Qed.

(** X12. Whenever the AI checker finds an algorithmic digital source type,
    the provenance checker finds an AI disclosure on the same record: the
    provenance group is then not all false, and its score is not forced to
    zero. *)
Theorem source_type_implies_disclosure P m a c :
  check_ai_indicators P m = Ok a →
  check_c2pa_authenticity P m = Ok c →
  dict_get "digital_source_type" a = Some true →
  dict_get "ai_disclosure" c = Some true ∧ py_any (values c) = true.
Proof.
  intros Ha [passed ->]%check_c2pa_authenticity_inv Hdst.
  destruct (check_ai_indicators_source_type _ _ _ Ha Hdst) as (v & Hv & Hcontains).
  assert (existsb (λ keyword,
            existsb (λ value, PyStr.contains keyword (PyStr.lower (py_str P value)))
              (map_to_list m).*2) ai_keywords = true) as Hdisc.
  { apply existsb_exists. exists "algorithmicmedia".
    split; [unfold ai_keywords; simpl; tauto|].
    apply existsb_exists. exists v. split; [|done].
    apply list_elem_of_In, list_elem_of_fmap. exists ("DigitalSourceType", v).
    split; [done|]. by apply elem_of_map_to_list. }
  unfold values, py_any. cbn [dict_get String.eqb Ascii.eqb Bool.eqb map snd existsb].
  rewrite Hdisc. split; [done|]. by rewrite !orb_true_r.
Qed.

(** ** Explicit AI credit *)

Lemma explicit_credit_loop_eq (m : metadata) (hit : value → bool)
    (fields : list string) b :
  fold_left (λ ai_checks field,
    match m !! field with
    | Some v => if hit v then dict_set "explicit_ai_credit" true ai_checks
                else ai_checks
    | None => ai_checks
    end) fields
    [("explicit_ai_credit", b); ("generative_actions", false);
     ("digital_source_type", false); ("creation_tools", false)]
  = [("explicit_ai_credit",
      b || existsb (λ field, from_option hit false (m !! field)) fields);
     ("generative_actions", false);
     ("digital_source_type", false); ("creation_tools", false)].
Proof.
  revert b. induction fields as [|f fields IH]; intros b.
  - simpl. by rewrite orb_false_r.
  - cbn [fold_left existsb]. destruct (m !! f) as [v|]; cbn [from_option].
    + destruct (hit v); cbn [dict_set String.eqb Ascii.eqb Bool.eqb];
        rewrite IH; [by rewrite !orb_true_r|done].
    + by rewrite IH.
Qed.

(** X13. [explicit_ai_credit] holds exactly when one of the fields Credit,
    Creator, Software and ProcessingSoftware is present and its text, in
    lower case, contains one of the AI terms - so also when the two letters
    "ai" occur anywhere in it. *)
Theorem explicit_ai_credit_iff P m a :
  check_ai_indicators P m = Ok a →
  dict_get "explicit_ai_credit" a = Some true
  ↔ ∃ field v term,
      field ∈ credit_fields ∧ m !! field = Some v ∧ term ∈ ai_terms
      ∧ PyStr.contains term (PyStr.lower (py_str P v)) = true.
Proof.
  unfold check_ai_indicators. simpl fmap.
  rewrite (explicit_credit_loop_eq m (mentions_ai P) credit_fields false).
  cbn [orb]. set (flag := existsb _ credit_fields).
  unfold mbind, result_bind. intros H.
  assert (dict_get "explicit_ai_credit" a = Some flag) as ->
    by (run_checker; reflexivity).
  split.
  - intros Hflag. assert (flag = true) as Hex by congruence. subst flag.
    apply existsb_exists in Hex as (field & Hin & Hhit).
    destruct (m !! field) as [v|] eqn:Hv; [|done]. cbn [from_option] in Hhit.
    apply existsb_exists in Hhit as (term & Hterm & Hcontains).
    exists field, v, term. by rewrite !list_elem_of_In.
  - intros (field & v & term & Hin & Hv & Hterm & Hcontains). f_equal. subst flag.
    apply existsb_exists. exists field. split; [by apply list_elem_of_In|].
    rewrite Hv. cbn [from_option]. apply existsb_exists.
    exists term. split; [by apply list_elem_of_In|done].
Qed.

(** ** Multiple editors *)

Lemma py_set_cons v l seen :
  is_list v = false →
  py_set (v :: l) seen
  = py_set l (if existsb (key_eq v) seen then seen else seen ++ [v]).
Proof. by destruct v. Qed.

Lemma py_set_length l seen s :
  py_set l seen = Ok s → length s ≤ length seen + length l.
Proof.
  revert seen. induction l as [|v l IH]; intros seen H.
  - injection H as <-. simpl. lia.
  - destruct v; try done; simpl in H; apply IH in H;
      destruct (existsb _ seen); rewrite ?length_app in H; simpl in *; lia.
Qed.

Lemma py_set_hashable l seen s :
  py_set l seen = Ok s → forallb (λ v, negb (is_list v)) l = true.
Proof.
  intros H. destruct (forallb _ l) eqn:E; [done|].
  apply (py_set_raises _ seen) in E. by rewrite H in E.
Qed.

Lemma software_used_three m a b c :
  m !! "Software" = Some a → m !! "ProcessingSoftware" = Some b →
  m !! "CreatorTool" = Some c →
  truthy a = true → truthy b = true → truthy c = true →
  software_used m = [a; b; c].
Proof.
  intros Ha Hb Hc Ta Tb Tc. unfold software_used, software_fields.
  cbn [fold_left]. by rewrite Ha, Hb, Hc, Ta, Tb, Tc.
Qed.

Lemma software_used_fewer m :
  (∀ a b c,
     m !! "Software" = Some a → m !! "ProcessingSoftware" = Some b →
     m !! "CreatorTool" = Some c →
     truthy a = true → truthy b = true → truthy c = true → False) →
  length (software_used m) ≤ 2.
Proof.
  intros Hnot. unfold software_used, software_fields. cbn [fold_left].
  destruct (m !! "Software") as [a|] eqn:Ha;
    destruct (m !! "ProcessingSoftware") as [b|] eqn:Hb;
    destruct (m !! "CreatorTool") as [c|] eqn:Hc;
    try destruct (truthy a) eqn:Ta; try destruct (truthy b) eqn:Tb;
    try destruct (truthy c) eqn:Tc; cbn; try lia.
  exfalso. by eapply Hnot.
Qed.

(** X14. [multiple_editors] holds exactly when Software, ProcessingSoftware
    and CreatorTool are all present with non-empty values that differ from
    one another: two editors, or an absent or empty third field, never
    trigger it. *)
Theorem multiple_editors_iff m t :
  check_tampering_indicators m = Ok t →
  dict_get "multiple_editors" t = Some true
  ↔ ∃ a b c,
      m !! "Software" = Some a ∧ m !! "ProcessingSoftware" = Some b
      ∧ m !! "CreatorTool" = Some c
      ∧ truthy a = true ∧ truthy b = true ∧ truthy c = true
      ∧ key_eq b a = false ∧ key_eq c a = false ∧ key_eq c b = false.
Proof.
  intros H. destruct (py_set (software_used m) []) as [editors|] eqn:E;
    [|unfold check_tampering_indicators in H; by rewrite E in H].
  rewrite (check_tampering_indicators_eq _ _ E) in H.
  match type of H with Ok ?x = Ok _ => assert (t = x) as -> by congruence end.
  cbn [dict_get String.eqb Ascii.eqb Bool.eqb]. split.
  - intros [= Hlen]. apply Nat.ltb_lt in Hlen.
    destruct (m !! "Software") as [a|] eqn:Ha;
      [|pose proof (software_used_fewer m) as Hf;
        pose proof (py_set_length _ _ _ E) as Hl; simpl in Hl;
        rewrite Ha in Hf; specialize (Hf ltac:(done)); lia].
    destruct (m !! "ProcessingSoftware") as [b|] eqn:Hb;
      [|pose proof (software_used_fewer m) as Hf;
        pose proof (py_set_length _ _ _ E) as Hl; simpl in Hl;
        rewrite Hb in Hf; specialize (Hf ltac:(done)); lia].
    destruct (m !! "CreatorTool") as [c|] eqn:Hc;
      [|pose proof (software_used_fewer m) as Hf;
        pose proof (py_set_length _ _ _ E) as Hl; simpl in Hl;
        rewrite Hc in Hf; specialize (Hf ltac:(done)); lia].
    destruct (truthy a) eqn:Ta;
      [|pose proof (software_used_fewer m) as Hf;
        pose proof (py_set_length _ _ _ E) as Hl; simpl in Hl;
        rewrite Ha in Hf; specialize (Hf ltac:(intros; congruence)); lia].
    destruct (truthy b) eqn:Tb;
      [|pose proof (software_used_fewer m) as Hf;
        pose proof (py_set_length _ _ _ E) as Hl; simpl in Hl;
        rewrite Hb in Hf; specialize (Hf ltac:(intros; congruence)); lia].
    destruct (truthy c) eqn:Tc;
      [|pose proof (software_used_fewer m) as Hf;
        pose proof (py_set_length _ _ _ E) as Hl; simpl in Hl;
        rewrite Hc in Hf; specialize (Hf ltac:(intros; congruence)); lia].
    exists a, b, c. repeat (split; [done|]).
    rewrite (software_used_three m a b c) in E by done.
    pose proof (py_set_hashable _ _ _ E) as Hhash. cbn [forallb] in Hhash.
    apply andb_prop in Hhash as [La Hhash]. apply andb_prop in Hhash as [Lb Hhash].
    apply andb_prop in Hhash as [Lc _]. apply negb_true_iff in La, Lb, Lc.
    rewrite !py_set_cons in E by done. cbn [existsb app] in E.
    destruct (key_eq b a) eqn:Eba; cbn [orb existsb app] in E.
    + destruct (key_eq c a); injection E as <-; simpl in Hlen; lia.
    + destruct (key_eq c a) eqn:Eca; cbn [orb] in E;
        [injection E as <-; simpl in Hlen; lia|].
      destruct (key_eq c b) eqn:Ecb; [injection E as <-; simpl in Hlen; lia|done].
  - intros (a & b & c & Ha & Hb & Hc & Ta & Tb & Tc & Eba & Eca & Ecb). f_equal.
    rewrite (software_used_three m a b c) in E by done.
    pose proof (py_set_hashable _ _ _ E) as Hhash. cbn [forallb] in Hhash.
    apply andb_prop in Hhash as [La Hhash]. apply andb_prop in Hhash as [Lb Hhash].
    apply andb_prop in Hhash as [Lc _]. apply negb_true_iff in La, Lb, Lc.
    rewrite !py_set_cons in E by done. cbn [existsb app] in E.
    rewrite Eba in E. cbn [orb existsb app] in E. rewrite Eca, Ecb in E.
    by injection E as <-.
Qed.

(** X15. A record with at most five fields that names its file type is
    always flagged as stripped: when [has_metadata] is false and FileType is
    present, [metadata_stripping] is true. *)
Theorem few_fields_are_flagged_as_stripped P m i t :
  check_basic_integrity P m = Ok i →
  check_tampering_indicators m = Ok t →
  is_Some (m !! "FileType") →
  dict_get "has_metadata" i = Some false →
  dict_get "metadata_stripping" t = Some true.
Proof.
  intros Hi Ht Hft Hmeta.
  assert (dict_get "has_metadata" i = Some (5 <? size m)) as Hsize.
  { revert Hi. unfold check_basic_integrity, py_in, py_split_head, py_int, py_float,
      mbind, result_bind. intros Hi. run_checker; reflexivity. }
  rewrite Hsize in Hmeta. injection Hmeta as Hmeta. apply Nat.ltb_ge in Hmeta.
  destruct (py_set (software_used m) []) as [editors|] eqn:E;
    [|unfold check_tampering_indicators in Ht; by rewrite E in Ht].
  rewrite (check_tampering_indicators_eq _ _ E) in Ht.
  match type of Ht with Ok ?x = Ok _ => assert (t = x) as -> by congruence end.
  cbn [dict_get String.eqb Ascii.eqb Bool.eqb]. f_equal.
  unfold mem. rewrite bool_decide_eq_true_2 by done.
  rewrite andb_true_r. apply Nat.ltb_lt. lia.
Qed.

(** ** Sizes in whole kilobytes *)

Lemma digit_char_facts c :
  is_Some (PyStr.digit_of c) →
  PyStr.int_space c = false ∧ Ascii.eqb " " c = false
  ∧ (∀ s, PyStr.int (String c s)
          = match PyStr.digits (PyStr.rstrip (String c s)) 0%Z 0 false with
            | Some (z, n) =>
                if PyStr.int_max_str_digits <? n then None else Some z
            | None => None
            end).
Proof.
  destruct c as [[] [] [] [] [] [] [] []]; intros [d Hd]; try discriminate Hd;
    (split; [reflexivity|split; [reflexivity|]]); intros s;
    unfold PyStr.int; cbn [PyStr.lstrip];
    match goal with |- context [PyStr.int_space ?c] =>
      change (PyStr.int_space c) with false end;
    cbv beta iota; destruct (PyStr.rstrip (String _ s)) as [|c' r] eqn:E.
  all: try reflexivity.
  all: cbn [PyStr.rstrip] in E; destruct (PyStr.rstrip s); try discriminate E;
    injection E as <- <-; reflexivity.
Qed.

Lemma rstrip_digits s : all_digits s = true → PyStr.rstrip s = s.
Proof.
  induction s as [|c s IH]; [done|]. cbn [all_digits PyStr.rstrip].
  intros [Hc Hs]%andb_prop. apply bool_decide_eq_true in Hc.
  rewrite IH by done. destruct s; [|done].
  by rewrite (proj1 (digit_char_facts c Hc)).
Qed.

Lemma all_digits_app s t :
  all_digits (s +:+ t) = all_digits s && all_digits t.
Proof.
  induction s as [|c s IH]; [done|].
  change (all_digits (String c (s +:+ t))
          = bool_decide (is_Some (PyStr.digit_of c)) && all_digits s && all_digits t).
  cbn [all_digits]. by rewrite IH, andb_assoc.
Qed.

Lemma str_append_cons c (s t : string) : String c s +:+ t = String c (s +:+ t).
Proof. reflexivity. Qed.

Lemma str_append_assoc (s t u : string) : (s +:+ t) +:+ u = s +:+ (t +:+ u).
Proof. induction s as [|c s IH]; [done|]. by rewrite !str_append_cons, IH. Qed.

Lemma str_append_nil_r (s : string) : s +:+ "" = s.
Proof. induction s as [|c s IH]; [done|]. by rewrite str_append_cons, IH. Qed.

Lemma str_length_append (s t : string) :
  String.length (s +:+ t) = String.length s + String.length t.
Proof.
  induction s as [|c s IH]; [done|]. rewrite str_append_cons. simpl. by rewrite IH.
Qed.

Lemma pretty_N_char_digit x :
  (x < 10)%N → PyStr.digit_of (pretty_N_char x) = Some (Z.of_N x).
Proof.
  intros H.
  assert (x = 0 ∨ x = 1 ∨ x = 2 ∨ x = 3 ∨ x = 4 ∨ x = 5 ∨ x = 6 ∨ x = 7
          ∨ x = 8 ∨ x = 9)%N as Hx by lia.
  repeat (destruct Hx as [->|Hx]; [reflexivity|]). by subst.
Qed.

Lemma pretty_N_go_app x s : pretty_N_go x s = pretty_N_go x "" +:+ s.
Proof.
  revert s. induction (N.lt_wf_0 x) as [x _ IH]; intros s.
  destruct (decide (0 < x)%N) as [Hx|Hx].
  - rewrite (pretty_N_go_step x s), (pretty_N_go_step x "") by done.
    rewrite (IH (x `div` 10)%N) by (apply N.div_lt; lia).
    rewrite (IH (x `div` 10)%N ltac:(apply N.div_lt; lia) (String _ "")).
    by rewrite str_append_assoc.
  - assert (x = 0%N) as -> by lia. by rewrite !pretty_N_go_0.
Qed.

Lemma pretty_N_go_last x :
  (0 < x)%N →
  pretty_N_go x ""
  = pretty_N_go (x `div` 10) "" +:+ String (pretty_N_char (x `mod` 10)) "".
Proof. intros Hx. by rewrite pretty_N_go_step, pretty_N_go_app. Qed.

Lemma pretty_N_go_digits x : all_digits (pretty_N_go x "") = true.
Proof.
  induction (N.lt_wf_0 x) as [x _ IH].
  destruct (decide (0 < x)%N) as [Hx|Hx].
  - rewrite pretty_N_go_last, all_digits_app, IH by (try apply N.div_lt; lia).
    cbn [all_digits andb].
    rewrite pretty_N_char_digit by (apply N.mod_lt; lia).
    rewrite bool_decide_eq_true_2 by by eexists. done.
  - assert (x = 0%N) as -> by lia. by rewrite pretty_N_go_0.
Qed.

Lemma digits_pretty_N_go x :
  (0 < x)%N →
  ∃ d, String.length (pretty_N_go x "") = d ∧ 0 < d
       ∧ ∀ rest acc k prev,
           PyStr.digits (pretty_N_go x "" +:+ rest) acc k prev
           = PyStr.digits rest (acc * 10 ^ Z.of_nat d + Z.of_N x)%Z (k + d) true.
Proof.
  induction (N.lt_wf_0 x) as [x _ IH]. intros Hx.
  rewrite pretty_N_go_last by done.
  pose proof (N.mod_lt x 10 ltac:(lia)) as Hmod.
  pose proof (N.div_mod x 10 ltac:(lia)) as Hdiv.
  destruct (decide (0 < x `div` 10)%N) as [Hq|Hq].
  - destruct (IH (x `div` 10)%N ltac:(apply N.div_lt; lia) Hq) as (d & Hlen & Hd & Hread).
    exists (S d). split; [|split; [lia|]].
    + rewrite str_length_append, Hlen. simpl. lia.
    + intros rest acc k prev. rewrite str_append_assoc, Hread.
      rewrite str_append_cons. change ("" +:+ rest) with rest. cbn [PyStr.digits].
      rewrite pretty_N_char_digit by done. f_equal; [|lia].
      rewrite Nat2Z.inj_succ, Z.pow_succ_r by lia. lia.
  - assert (x `div` 10 = 0)%N as Hzero by lia. rewrite Hzero, pretty_N_go_0.
    exists 1. split; [done|]. split; [lia|].
    intros rest acc k prev. change ("" +:+ String ?c "" +:+ rest) with (String c rest).
    change (PyStr.digits (String (pretty_N_char (x `mod` 10)) rest) acc k prev
            = PyStr.digits rest (acc * 10 ^ Z.of_nat 1 + Z.of_N x)%Z (k + 1) true).
    cbn [PyStr.digits].
    rewrite pretty_N_char_digit by done. f_equal; lia.
Qed.

Lemma int_pretty_N (n : N) :
  String.length (pretty n) ≤ PyStr.int_max_str_digits →
  PyStr.int (pretty n) = Some (Z.of_N n) ∧ all_digits (pretty n) = true.
Proof.
  unfold pretty, pretty_N. destruct (decide (n = 0%N)) as [->|Hn]; [done|].
  intros Hlen. pose proof (pretty_N_go_digits n) as Hdig. split; [|done].
  destruct (digits_pretty_N_go n ltac:(lia)) as (d & Hd & Hpos & Hread).
  specialize (Hread "" 0%Z 0 false). rewrite str_append_nil_r in Hread.
  destruct (pretty_N_go n "") as [|c s] eqn:E; [simpl in Hd; lia|].
  cbn [all_digits] in Hdig. apply andb_prop in Hdig as [Hc Hs].
  apply bool_decide_eq_true in Hc.
  rewrite (proj2 (proj2 (digit_char_facts c Hc))).
  rewrite rstrip_digits
    by (cbn [all_digits]; by rewrite bool_decide_eq_true_2, Hs).
  rewrite Hread. cbn [PyStr.digits]. rewrite Hd in Hlen.
  rewrite (proj2 (Nat.ltb_ge _ _)) by done. f_equal; lia.
Qed.

Lemma contains_app_r needle s t :
  PyStr.contains needle t = true → PyStr.contains needle (s +:+ t) = true.
Proof.
  intros H. induction s as [|c s IH]; [done|].
  rewrite str_append_cons. change (PyStr.contains needle (String c (s +:+ t)))
    with (PyStr.startswith needle (String c (s +:+ t))
          || PyStr.contains needle (s +:+ t)).
  by rewrite IH, orb_true_r.
Qed.

Lemma split_head_digits s :
  all_digits s = true → PyStr.split_head " kB" (s +:+ " kB") = s.
Proof.
  induction s as [|c s IH]; [done|]. cbn [all_digits]. rewrite str_append_cons.
  intros [Hc Hs]%andb_prop. apply bool_decide_eq_true in Hc.
  change (PyStr.split_head " kB" (String c (s +:+ " kB")))
    with (if PyStr.startswith " kB" (String c (s +:+ " kB")) then EmptyString
          else String c (PyStr.split_head " kB" (s +:+ " kB"))).
  cbn [PyStr.startswith].
  rewrite (proj1 (proj2 (digit_char_facts c Hc))). cbn [andb]. by rewrite IH.
Qed.

(** X16. A file size given in whole kilobytes, as ExifTool prints it
    ("200 kB"), never makes the integrity checker fail, and
    [reasonable_size] holds exactly when the number is between 1 and
    50000. *)
Theorem whole_kilobyte_sizes P m (n : N) :
  m !! "FileSize" = Some (VStr (pretty n +:+ " kB")) →
  String.length (pretty n) ≤ PyStr.int_max_str_digits →
  ∃ i, check_basic_integrity P m = Ok i
       ∧ dict_get "reasonable_size" i
         = Some ((1 <=? Z.of_N n)%Z && (Z.of_N n <=? 50000)%Z).
Proof.
  intros Hsize Hlen. destruct (int_pretty_N n Hlen) as [Hint Hdig].
  unfold check_basic_integrity. rewrite Hsize.
  unfold py_in, py_split_head, py_int.
  rewrite (contains_app_r "kB" (pretty n) " kB") by reflexivity.
  cbn [mbind result_bind]. rewrite split_head_digits by done.
  rewrite Hint. cbn [mbind result_bind].
  eexists. split; [reflexivity|].
  repeat case_match; reflexivity.
Qed.

(** ** Sizes with a decimal point *)

Lemma contains_dot s : PyStr.contains "." s = has_dot s.
Proof.
  induction s as [|c s IH]; [done|].
  change (PyStr.contains "." (String c s))
    with (Ascii.eqb "." c && PyStr.startswith "" s || PyStr.contains "." s).
  rewrite IH. cbn [has_dot]. destruct s; by rewrite andb_true_r.
Qed.

Lemma space_is_not_dot c : PyStr.int_space c = true → Ascii.eqb "." c = false.
Proof. destruct (Ascii.eqb_spec "." c) as [<-|]; [discriminate|done]. Qed.

Lemma has_dot_lstrip s : has_dot (PyStr.lstrip s) = has_dot s.
Proof.
  induction s as [|c s IH]; [done|]. cbn [PyStr.lstrip has_dot].
  destruct (PyStr.int_space c) eqn:E; [|done].
  by rewrite IH, (space_is_not_dot c E).
Qed.

Lemma has_dot_rstrip s : has_dot (PyStr.rstrip s) = has_dot s.
Proof.
  induction s as [|c s IH]; [done|]. cbn [PyStr.rstrip has_dot]. rewrite <- IH.
  destruct (PyStr.rstrip s); [|done].
  destruct (PyStr.int_space c) eqn:E; [|done].
  by rewrite (space_is_not_dot c E).
Qed.

Lemma digits_reject_dot s acc n prev :
  has_dot s = true → PyStr.digits s acc n prev = None.
Proof.
  revert acc n prev. induction s as [|c s IH]; intros acc n prev; [done|].
  cbn [has_dot PyStr.digits]. destruct (Ascii.eqb_spec "." c) as [<-|Hne].
  - done.
  - cbn [orb]. intros Hs. destruct (PyStr.digit_of c); [by apply IH|].
    destruct (Ascii.eqb c "_"); [|done]. destruct prev; [by apply IH|done].
Qed.

Lemma int_rejects_dot s : PyStr.contains "." s = true → PyStr.int s = None.
Proof.
  rewrite contains_dot, <- has_dot_lstrip, <- has_dot_rstrip. unfold PyStr.int.
  destruct (PyStr.rstrip (PyStr.lstrip s)) as [|c r]; [done|].
  destruct c as [[] [] [] [] [] [] [] []]; cbn [has_dot Ascii.eqb Bool.eqb andb orb];
    intros Hdot; cbv beta iota; rewrite digits_reject_dot; done.
Qed.

(** X17. A size in kilobytes written with a decimal point ("2.5 kB", the
    form ExifTool uses below 10 kB) always makes the integrity checker raise
    [ValueError], and with it the analysis of the image. *)
Theorem decimal_kilobyte_sizes_raise P path m s :
  extract_metadata P path = Some m →
  m !! "FileSize" = Some (VStr s) →
  PyStr.contains "kB" s = true →
  PyStr.contains "." (PyStr.split_head " kB" s) = true →
  check_basic_integrity P m = Raise (ValueError "int" (PyStr.split_head " kB" s))
  ∧ analyze_image P path = Raise (ValueError "int" (PyStr.split_head " kB" s)).
Proof.
  intros Hm Hsize Hkb Hdot.
  assert (check_basic_integrity P m
          = Raise (ValueError "int" (PyStr.split_head " kB" s))) as Hraise.
  { unfold check_basic_integrity. rewrite Hsize. unfold py_in, py_split_head, py_int.
    rewrite Hkb. cbn [mbind result_bind]. by rewrite (int_rejects_dot _ Hdot). }
  split; [done|]. unfold analyze_image. rewrite Hm.
  destruct (Nat.eqb_spec (size m) 0) as [Hzero|_].
  - apply map_size_empty_iff in Hzero. subst m. by rewrite lookup_empty in Hsize.
  - by rewrite Hraise.
Qed.

(** ** The upload page and the batch filter *)

Lemma lower_app s t : PyStr.lower (s +:+ t) = PyStr.lower s +:+ PyStr.lower t.
Proof.
  induction s as [|c s IH]; [done|].
  rewrite str_append_cons.
  change (String (PyStr.lower_char c) (PyStr.lower (s +:+ t))
          = String (PyStr.lower_char c) (PyStr.lower s) +:+ PyStr.lower t).
  by rewrite IH, str_append_cons.
Qed.

Lemma endswith_app suffix pre : PyStr.endswith suffix (pre +:+ suffix) = true.
Proof.
  induction pre as [|c pre IH].
  - change ("" +:+ suffix) with suffix.
    destruct suffix; cbn [PyStr.endswith]; by rewrite String.eqb_refl.
  - rewrite str_append_cons. cbn [PyStr.endswith]. by rewrite IH, orb_true_r.
Qed.

Lemma after_last_dot_split s :
  has_dot s = true → ∃ pre, s = pre +:+ "." +:+ after_last_dot s.
Proof.
  induction s as [|c s IH]; [done|]. cbn [has_dot after_last_dot].
  destruct (has_dot s) eqn:Hs.
  - intros _. destruct (IH eq_refl) as [pre Hpre].
    exists (String c pre). by rewrite str_append_cons, <- Hpre.
  - rewrite orb_false_r. intros Hc. rewrite Hc.
    apply Ascii.eqb_eq in Hc as <-. by exists "".
Qed.

(** X18. The upload page is stricter than the batch filter: a file name
    with an extension that the page accepts (png, jpg or jpeg after the last
    full stop, in any case) is also an image for the batch runner, and a
    name the page refuses is answered without being analysed. *)
Theorem accepted_uploads_are_batch_images P basename filename :
  (upload_allowed filename = true → has_dot filename = true →
   is_image filename = true)
  ∧ (upload_allowed filename = false →
     upload_result P basename filename = Ok "Only PNG or JPG files are allowed.").
Proof.
  split.
  - unfold upload_allowed, is_image. intros Hext Hdot.
    destruct (after_last_dot_split filename Hdot) as [pre Hpre].
    pose proof (f_equal PyStr.lower Hpre) as Hlower. rewrite !lower_app in Hlower.
    change (PyStr.lower ".") with "." in Hlower.
    apply existsb_exists in Hext as (e & He & Heq). apply String.eqb_eq in Heq.
    apply existsb_exists. exists ("." +:+ e).
    split; [|rewrite Hlower, Heq; apply endswith_app].
    simpl in He. unfold image_extensions.
    destruct He as [<-|[<-|[<-|[]]]]; simpl; tauto.
  - unfold upload_result. by intros ->.
Qed.

(** The batch filter accepts names that the upload page refuses. *)
Example batch_images_refused_by_the_page :
  is_image "scan.TIFF" = true ∧ upload_allowed "scan.TIFF" = false
  ∧ upload_allowed "png" = true ∧ is_image "png" = false.
Proof. repeat split; by vm_compute. Qed.

(** ** Dates that are numbers *)

Lemma parse_years_number dates acc :
  existsb is_number dates = true → returns (parse_years dates acc) = false.
Proof.
  revert acc. induction dates as [|date dates IH]; intros acc; [done|].
  cbn [existsb parse_years]. destruct date as [s|z|f|l]; cbn [is_number orb py_in];
    try done; intros H; cbn [mbind result_bind].
  - destruct (PyStr.contains "202" s); [|by apply IH].
    unfold py_year, py_int. destruct (PyStr.int _); [|done].
    cbn [mbind result_bind]. by apply IH.
  - destruct (existsb (String.eqb "202") l); [done|by apply IH].
Qed.

(** X19. A date field that holds a number (ExifTool prints a bare year as a
    number) silences the date check: the [TypeError] of the membership
    test is swallowed with the whole block, and in every result of the
    tampering checker [date_anomalies] is false, whatever the other dates
    are. *)
Theorem numeric_date_silences_anomalies m t v :
  check_tampering_indicators m = Ok t →
  v ∈ existing tampering_date_fields m →
  is_number v = true →
  dict_get "date_anomalies" t = Some false.
Proof.
  intros H Hv Hnum. destruct (py_set (software_used m) []) as [editors|] eqn:E;
    [|unfold check_tampering_indicators in H; by rewrite E in H].
  rewrite (check_tampering_indicators_eq _ _ E) in H.
  match type of H with Ok ?x = Ok _ => assert (t = x) as -> by congruence end.
  cbn [dict_get String.eqb Ascii.eqb Bool.eqb]. f_equal.
  assert (returns (parse_years (existing tampering_date_fields m) []) = false) as Hr.
  { apply parse_years_number, existsb_exists. exists v.
    split; [by apply list_elem_of_In|done]. }
  destruct (parse_years _ []); [done|]. by rewrite andb_false_r.
Qed.

(** * Runs of the model *)

(** A record with a file type and a size only: two of the four integrity
    checks hold. *)
Example integrity_of_two_fields :
  check_basic_integrity Bench.platform
    {[ "FileType" := VStr "PNG"; "FileSize" := VStr "200 kB" ]}
  = Ok [("valid_file_type", true); ("reasonable_size", true);
        ("has_metadata", false); ("consistent_dates", false)]
  ∧ integrity_score [("valid_file_type", true); ("reasonable_size", true);
                     ("has_metadata", false); ("consistent_dates", false)]
    = Ok 0.5%float.
Proof. split; by vm_compute. Qed.

(** Two distinct editors among three software fields are not "multiple". *)
Example two_distinct_editors :
  check_tampering_indicators
    {[ "Software" := VStr "Photoshop"; "ProcessingSoftware" := VStr "Lightroom";
       "CreatorTool" := VStr "Photoshop" ]}
  = Ok [("inconsistent_software", false); ("multiple_editors", false);
        ("metadata_stripping", false); ("date_anomalies", false)].
Proof. by vm_compute. Qed.

(** The batch over the bench directory: a report for the camera picture,
    nothing for the text file, an error entry for the picture whose size
    does not parse, and one for the picture without metadata. *)
Example batch_entries_of_the_bench :
  match analyze_directory Bench.platform "shots" with
  | Ok results =>
      Some ((λ e, match e with
                  | EReport r => image_path r +:+ ": " +:+ verdict r
                  | EError message => message
                  end) <$> results)
  | Raise _ => None
  end
  = Some ["shots/cam.jpg: POTENTIALLY_MANIPULATED";
          "Failed to analyze small.png: invalid literal: 2.5";
          "Could not extract metadata"].
Proof. by vm_compute. Qed.

(** * The theorems at work on the test bench *)

Lemma score_in_range_on_camera :
  check_basic_integrity Bench.platform Bench.camera = Ok Bench.camera_integrity
  ∧ check_c2pa_authenticity Bench.platform Bench.camera = Ok Bench.camera_c2pa
  ∧ check_ai_indicators Bench.platform Bench.camera = Ok Bench.camera_ai
  ∧ check_tampering_indicators Bench.camera = Ok Bench.camera_tampering
  ∧ ((∃ score,
        calculate_authenticity_score Bench.camera_integrity Bench.camera_c2pa
          Bench.camera_ai Bench.camera_tampering = Ok score
        ∧ (0 <=? score)%float = true ∧ (score <=? 100)%float = true
        ∧ in_band score (get_verdict score)
        ∧ ∀ v, in_band score v → v = get_verdict score)
     ∧ get_verdict 80 = "HIGH_CONFIDENCE_AUTHENTIC"
     ∧ get_verdict 60 = "MODERATE_CONFIDENCE"
     ∧ get_verdict 40 = "LOW_CONFIDENCE").
Proof.
  assert (check_basic_integrity Bench.platform Bench.camera = Ok Bench.camera_integrity)
    as Hi by (vm_compute; reflexivity).
  assert (check_c2pa_authenticity Bench.platform Bench.camera = Ok Bench.camera_c2pa)
    as Hc by (vm_compute; reflexivity).
  assert (check_ai_indicators Bench.platform Bench.camera = Ok Bench.camera_ai)
    as Ha by (vm_compute; reflexivity).
  assert (check_tampering_indicators Bench.camera = Ok Bench.camera_tampering)
    as Ht by (vm_compute; reflexivity).
  exact (conj Hi (conj Hc (conj Ha (conj Ht
    (score_in_range_verdict_in_band _ _ _ _ _ _ Hi Hc Ha Ht))))).
Defined.

Lemma flipping_consistent_dates_on_camera :
  keys Bench.camera_integrity = integrity_keys
  ∧ keys Bench.camera_c2pa = c2pa_keys
  ∧ keys Bench.camera_ai = ai_keys
  ∧ keys Bench.camera_tampering = tampering_keys
  ∧ dict_get "consistent_dates" Bench.camera_integrity = Some false
  ∧ ∃ score score',
      calculate_authenticity_score Bench.camera_integrity Bench.camera_c2pa
        Bench.camera_ai Bench.camera_tampering = Ok score
      ∧ calculate_authenticity_score
          (dict_set "consistent_dates" true Bench.camera_integrity) Bench.camera_c2pa
          Bench.camera_ai Bench.camera_tampering = Ok score'
      ∧ (score <=? score')%float = true.
Proof.
  repeat (split; [reflexivity|]).
  destruct (flipping_one_check_is_monotone Bench.camera_integrity Bench.camera_c2pa
              Bench.camera_ai Bench.camera_tampering "consistent_dates"
              eq_refl eq_refl eq_refl eq_refl)
    as (score & Hs & Hi & _).
  destruct (Hi eq_refl) as (score' & Hs' & Hle).
  exists score, score'. auto.
Defined.

Lemma camera_provenance_is_forced_to_zero :
  Forall (λ b, b = false) (values Bench.camera_c2pa)
  ∧ c2pa_score Bench.camera_c2pa = Ok 0%float.
Proof.
  assert (Forall (λ b, b = false) (values Bench.camera_c2pa)) as H
    by (repeat constructor).
  exact (conj H (proj1 (all_false_provenance_is_forced_to_zero _ H))).
Defined.

Lemma recommendations_on_camera :
  dict_get "c2pa" Bench.camera_checks = Some Bench.camera_c2pa
  ∧ dict_get "tampering" Bench.camera_checks = Some Bench.camera_tampering
  ∧ dict_get "ai" Bench.camera_checks = Some Bench.camera_ai
  ∧ get_recommendations Bench.camera_checks 32.5 =
      Ok (recommendation_rules "" 32.5 false false true).
Proof.
  repeat (split; [reflexivity|]).
  exact (recommendations_follow_the_rules Bench.camera_checks 32.5 Bench.camera_c2pa
           Bench.camera_tampering Bench.camera_ai false false true
           eq_refl eq_refl eq_refl eq_refl eq_refl eq_refl).
Defined.

Lemma date_anomalies_on_camera :
  existing tampering_date_fields Bench.camera = VStr <$> Bench.camera_dates
  ∧ hashable_software Bench.camera = true
  ∧ date_anomalies_rule Bench.camera_dates = true
  ∧ ∃ r, check_tampering_indicators Bench.camera = Ok r
         ∧ dict_get "date_anomalies" r = Some (date_anomalies_rule Bench.camera_dates).
Proof.
  assert (existing tampering_date_fields Bench.camera = VStr <$> Bench.camera_dates)
    as Hd by (vm_compute; reflexivity).
  assert (hashable_software Bench.camera = true) as Hh by (vm_compute; reflexivity).
  split; [exact Hd|]. split; [exact Hh|]. split; [vm_compute; reflexivity|].
  exact (date_anomalies_follow_the_rule Bench.camera Bench.camera_dates Hd Hh).
Defined.

Lemma signed_manifest_on_the_bench :
  is_Some (Bench.signed !! "ClaimSignatureUrl")
  ∧ is_Some (Bench.signed !! "ActiveManifestHash")
  ∧ Bench.signed !! "ValidationResultsActiveManifestSuccessCode" = None
  ∧ ∃ disclosure c,
      check_c2pa_authenticity Bench.platform Bench.signed = Ok c
      ∧ c = [("has_c2pa_manifest", true); ("valid_signature", true);
             ("hash_validation", true); ("ai_disclosure", disclosure);
             ("validation_passed", false)]
      ∧ c2pa_score c = Ok (if disclosure then 0.8 else 0.6)%float.
Proof.
  assert (is_Some (Bench.signed !! "ClaimSignatureUrl")) as Hs
    by (eexists; vm_compute; reflexivity).
  assert (is_Some (Bench.signed !! "ActiveManifestHash")) as Hh
    by (eexists; vm_compute; reflexivity).
  assert (Bench.signed !! "ValidationResultsActiveManifestSuccessCode" = None) as Hv
    by (vm_compute; reflexivity).
  exact (conj Hs (conj Hh (conj Hv
    (signed_manifest_scores_at_least_three_fifths Bench.platform _ Hs Hh Hv)))).
Defined.

Lemma checkers_return_on_camera :
  well_formed Bench.platform Bench.camera = true
  ∧ ∃ i c a t,
      check_basic_integrity Bench.platform Bench.camera = Ok i
      ∧ check_c2pa_authenticity Bench.platform Bench.camera = Ok c
      ∧ check_ai_indicators Bench.platform Bench.camera = Ok a
      ∧ check_tampering_indicators Bench.camera = Ok t
      ∧ keys i = integrity_keys ∧ keys c = c2pa_keys
      ∧ keys a = ai_keys ∧ keys t = tampering_keys
      ∧ absent_fields_are_false Bench.camera i c a t.
Proof.
  assert (well_formed Bench.platform Bench.camera = true) as H
    by (vm_compute; reflexivity).
  exact (conj H (checkers_return_on_well_formed_records Bench.platform _ H)).
Defined.

Lemma batch_over_the_bench_directory :
  listdir Bench.platform "shots"
    = Some ["cam.jpg"; "notes.txt"; "small.png"; "empty.PNG"]
  ∧ ∃ results,
      analyze_directory Bench.platform "shots" = Ok results
      ∧ results = (file_entry Bench.platform "shots" <$>
                     List.filter is_image ["cam.jpg"; "notes.txt"; "small.png"; "empty.PNG"])
      ∧ generate_summary_report Bench.platform results
        = Ok (summary_lines Bench.platform results)
      ∧ (∀ r, r ∈ valid_results results ↔ EReport r ∈ results)
      ∧ ∀ others, valid_results others = valid_results results →
                  generate_summary_report Bench.platform others
                  = generate_summary_report Bench.platform results.
Proof.
  assert (listdir Bench.platform "shots"
          = Some ["cam.jpg"; "notes.txt"; "small.png"; "empty.PNG"]) as H
    by reflexivity.
  exact (conj H (batch_isolates_failures_and_summarises_reports _ _ _ H)).
Defined.

(** * The further properties at work on the test bench *)

Lemma camera_is_analysed :
  analyze_image Gallery.platform "shots/cam.jpg" = Ok (EReport Gallery.camera_report).
Proof. vm_compute. reflexivity. Defined.

Lemma trusted_is_analysed :
  analyze_image Gallery.platform "shots/trusted.jpg"
  = Ok (EReport Gallery.trusted_report).
Proof. vm_compute. reflexivity. Defined.

Lemma camera_report_is_consistent :
  analyze_image Gallery.platform "shots/cam.jpg" = Ok (EReport Gallery.camera_report)
  ∧ image_path Gallery.camera_report = "shots/cam.jpg"
  ∧ in_band (authenticity_score Gallery.camera_report) (verdict Gallery.camera_report)
  ∧ recommendations Gallery.camera_report =
      recommendation_rules "" (authenticity_score Gallery.camera_report)
        (report_flag "c2pa" "has_c2pa_manifest" Gallery.camera_report)
        (report_flag "tampering" "multiple_editors" Gallery.camera_report)
        (report_flag "ai" "explicit_ai_credit" Gallery.camera_report).
Proof.
  destruct (analyze_image_report_is_consistent _ _ _ camera_is_analysed)
    as (Hp & _ & _ & _ & Hb & _ & _ & Hr).
  exact (conj camera_is_analysed (conj Hp (conj Hb Hr))).
Defined.

Lemma camera_verdict_is_free_of_rounding :
  keys Bench.camera_integrity = integrity_keys
  ∧ keys Bench.camera_c2pa = c2pa_keys
  ∧ keys Bench.camera_ai = ai_keys
  ∧ keys Bench.camera_tampering = tampering_keys
  ∧ ∃ score,
      calculate_authenticity_score Bench.camera_integrity Bench.camera_c2pa
        Bench.camera_ai Bench.camera_tampering = Ok score
      ∧ get_verdict score = Exact.exact_verdict (Exact.exact_score 3 0 1 2).
Proof.
  repeat (split; [reflexivity|]).
  exact (verdict_is_free_of_rounding Bench.camera_integrity Bench.camera_c2pa
           Bench.camera_ai Bench.camera_tampering eq_refl eq_refl eq_refl eq_refl).
Defined.

Lemma camera_score_between_2_5_and_100 :
  analyze_image Gallery.platform "shots/cam.jpg" = Ok (EReport Gallery.camera_report)
  ∧ (2.5 <=? authenticity_score Gallery.camera_report)%float = true
  ∧ (authenticity_score Gallery.camera_report <? 100)%float = true.
Proof.
  exact (conj camera_is_analysed
           (report_score_between_2_5_and_100 _ _ _ camera_is_analysed)).
Defined.

Lemma trusted_has_provenance :
  analyze_image Gallery.platform "shots/trusted.jpg"
    = Ok (EReport Gallery.trusted_report)
  ∧ verdict Gallery.trusted_report = "HIGH_CONFIDENCE_AUTHENTIC"
  ∧ 3 ≤ report_count "c2pa" Gallery.trusted_report
  ∧ 2 ≤ report_count "integrity" Gallery.trusted_report.
Proof.
  assert (verdict Gallery.trusted_report = "HIGH_CONFIDENCE_AUTHENTIC") as Hv
    by reflexivity.
  exact (conj trusted_is_analysed (conj Hv
           (high_confidence_needs_provenance _ _ _ trusted_is_analysed Hv))).
Defined.

Lemma quick_check_on_camera :
  analyze_image Gallery.platform "shots/cam.jpg" = Ok (EReport Gallery.camera_report)
  ∧ ∃ text, quick_check Gallery.platform "shots/cam.jpg" = Ok text.
Proof.
  split; [exact camera_is_analysed|].
  destruct (quick_check_agrees_with_verdict _ _ _ camera_is_analysed)
    as [(H & _)|[(H & _)|(H & _)]]; eauto.
Defined.

Lemma camera_report_is_rendered :
  analyze_image Gallery.platform "shots/cam.jpg" = Ok (EReport Gallery.camera_report)
  ∧ ∃ lines,
      get_report_as_strings Gallery.platform id Gallery.camera_report = Ok lines
      ∧ length lines = 15.
Proof.
  split; [exact camera_is_analysed|].
  destruct (rendered_report_is_consistent Gallery.platform id _ _ camera_is_analysed)
    as (lines & Hl & Hlen & _).
  exists lines. split; [exact Hl|exact Hlen].
Defined.

Lemma batch_output_of_the_bench :
  listdir Bench.platform "shots"
    = Some ["cam.jpg"; "notes.txt"; "small.png"; "empty.PNG"]
  ∧ ∃ results,
      analyze_directory Bench.platform "shots" = Ok results
      ∧ batch_analyze_directory Bench.platform id "shots"
        = Ok (concat (entry_block Bench.platform id <$> results)
              ++ summary_lines Bench.platform results).
Proof.
  split; [reflexivity|].
  destruct (batch_output_is_blocks_then_summary Bench.platform id "shots" _ eq_refl)
    as (results & Hr & Hout & _).
  exists results. split; [exact Hr|exact Hout].
Defined.

Lemma missing_file_is_reported :
  extraction_fails Bench.platform (path_join Bench.platform "shots" "missing.jpg")
  ∧ quick_check Bench.platform (path_join Bench.platform "shots" "missing.jpg")
    = Ok "Error analyzing image: Could not extract metadata".
Proof.
  assert (extraction_fails Bench.platform
            (path_join Bench.platform "shots" "missing.jpg")) as H
    by (left; discriminate).
  exact (conj H (proj1 (failed_extraction_is_reported Bench.platform id _ _ H))).
Defined.

Lemma histogram_of_two_reports :
  (∃ s, summarize [Gallery.camera_report; Gallery.trusted_report] = Ok s
        ∧ total_images s = 2
        ∧ high s + medium s + low s + suspicious s = total_images s).
Proof.
  destruct (summarize [Gallery.camera_report; Gallery.trusted_report]) as [s|] eqn:E;
    [|vm_compute in E; discriminate E].
  destruct (summary_histogram_partitions _ _ E) as (Ht & Hs & _).
  exists s. split; [reflexivity|]. split; [exact Ht|exact Hs].
Defined.

Lemma signed_has_a_manifest :
  (∃ c, check_c2pa_authenticity Bench.platform Bench.signed = Ok c
        ∧ dict_get "valid_signature" c = Some true
        ∧ dict_get "has_c2pa_manifest" c = Some true).
Proof.
  eexists. split; [vm_compute; reflexivity|]. split; [reflexivity|].
  apply (valid_signature_implies_manifest Bench.platform Bench.signed);
    [vm_compute; reflexivity|reflexivity].
Defined.

Lemma trusted_discloses_its_source :
  (∃ a c, check_ai_indicators Gallery.platform Gallery.trusted = Ok a
          ∧ check_c2pa_authenticity Gallery.platform Gallery.trusted = Ok c
          ∧ dict_get "digital_source_type" a = Some true
          ∧ dict_get "ai_disclosure" c = Some true).
Proof.
  eexists _, _. split; [vm_compute; reflexivity|]. split; [vm_compute; reflexivity|].
  split; [reflexivity|].
  refine (proj1 (source_type_implies_disclosure Gallery.platform Gallery.trusted
                   _ _ _ _ _));
    [vm_compute; reflexivity|vm_compute; reflexivity|reflexivity].
Defined.

Lemma camera_has_an_ai_credit :
  check_ai_indicators Bench.platform Bench.camera = Ok Bench.camera_ai
  ∧ ∃ field v term,
      field ∈ credit_fields ∧ Bench.camera !! field = Some v ∧ term ∈ ai_terms
      ∧ PyStr.contains term (PyStr.lower (py_str Bench.platform v)) = true.
Proof.
  assert (check_ai_indicators Bench.platform Bench.camera = Ok Bench.camera_ai) as H
    by (vm_compute; reflexivity).
  exact (conj H (proj1 (explicit_ai_credit_iff _ _ _ H) eq_refl)).
Defined.

Lemma edited_has_multiple_editors :
  (∃ t, check_tampering_indicators Gallery.edited = Ok t
        ∧ dict_get "multiple_editors" t = Some true).
Proof.
  eexists. split; [vm_compute; reflexivity|].
  apply (multiple_editors_iff Gallery.edited); [vm_compute; reflexivity|].
  exists (VStr "Photoshop"), (VStr "Lightroom"), (VStr "GIMP").
  repeat split; vm_compute; reflexivity.
Defined.

Lemma tiny_is_flagged_as_stripped :
  (∃ i t, check_basic_integrity Bench.platform Gallery.tiny = Ok i
          ∧ check_tampering_indicators Gallery.tiny = Ok t
          ∧ is_Some (Gallery.tiny !! "FileType")
          ∧ dict_get "has_metadata" i = Some false
          ∧ dict_get "metadata_stripping" t = Some true).
Proof.
  assert (is_Some (Gallery.tiny !! "FileType")) as Hft
    by (eexists; vm_compute; reflexivity).
  eexists _, _. split; [vm_compute; reflexivity|]. split; [vm_compute; reflexivity|].
  split; [exact Hft|]. split; [reflexivity|].
  refine (few_fields_are_flagged_as_stripped Bench.platform Gallery.tiny
            _ _ _ _ Hft _);
    [vm_compute; reflexivity|vm_compute; reflexivity|reflexivity].
Defined.

Lemma tiny_has_a_reasonable_size :
  Gallery.tiny !! "FileSize" = Some (VStr (pretty 200%N +:+ " kB"))
  ∧ String.length (pretty 200%N) ≤ PyStr.int_max_str_digits
  ∧ ∃ i, check_basic_integrity Bench.platform Gallery.tiny = Ok i
         ∧ dict_get "reasonable_size" i = Some true.
Proof.
  assert (Gallery.tiny !! "FileSize" = Some (VStr (pretty 200%N +:+ " kB"))) as Hs
    by (vm_compute; reflexivity).
  assert (String.length (pretty 200%N) ≤ PyStr.int_max_str_digits) as Hl
    by (apply Nat.leb_le; vm_compute; reflexivity).
  exact (conj Hs (conj Hl (whole_kilobyte_sizes Bench.platform _ _ Hs Hl))).
Defined.

Lemma small_png_raises :
  extract_metadata Bench.platform "shots/small.png" = Some Bench.small_png
  ∧ Bench.small_png !! "FileSize" = Some (VStr "2.5 kB")
  ∧ analyze_image Bench.platform "shots/small.png" = Raise (ValueError "int" "2.5").
Proof.
  assert (extract_metadata Bench.platform "shots/small.png" = Some Bench.small_png)
    as Hm by (vm_compute; reflexivity).
  assert (Bench.small_png !! "FileSize" = Some (VStr "2.5 kB")) as Hs
    by (vm_compute; reflexivity).
  exact (conj Hm (conj Hs
    (proj2 (decimal_kilobyte_sizes_raise Bench.platform _ _ "2.5 kB" Hm Hs
              eq_refl eq_refl)))).
Defined.

Lemma bare_year_silences_anomalies :
  (∃ t, check_tampering_indicators Gallery.bare_year = Ok t
        ∧ VInt 2025 ∈ existing tampering_date_fields Gallery.bare_year
        ∧ dict_get "date_anomalies" t = Some false).
Proof.
  assert (VInt 2025 ∈ existing tampering_date_fields Gallery.bare_year) as Hin
    by (vm_compute; left).
  eexists. split; [vm_compute; reflexivity|]. split; [exact Hin|].
  refine (numeric_date_silences_anomalies Gallery.bare_year _ (VInt 2025) _ Hin eq_refl).
  vm_compute. reflexivity.
Defined.

Lemma upper_case_upload_is_a_batch_image :
  upload_allowed "holiday.photo.JPG" = true
  ∧ has_dot "holiday.photo.JPG" = true
  ∧ is_image "holiday.photo.JPG" = true.
Proof.
  assert (upload_allowed "holiday.photo.JPG" = true) as Hok by (vm_compute; reflexivity).
  assert (has_dot "holiday.photo.JPG" = true) as Hdot by (vm_compute; reflexivity).
  split; [exact Hok|]. split; [exact Hdot|].
  exact (proj1 (accepted_uploads_are_batch_images Bench.platform (λ p, p)
                  "holiday.photo.JPG") Hok Hdot).
Defined.
